(** * flatbread: totals, percentages and apportioned rounding

    A shallow embedding of the percentage-and-totals transforms of
    flatbread ([chaining.py], [transforms/percentages.py],
    [transforms/totals.py], [tooling.py]) together with the properties
    stated about them.

    Number model.  A pandas cell is a float: a finite number, NaN or an
    infinity.  Finite numbers are represented by exact rationals, so
    that sums, quotients and rounding are the mathematical ones; NaN
    and the two infinities are kept as separate values with the IEEE
    rules for the operations used here.  Signed zeros and binary
    rounding error are outside this model. *)

From Stdlib Require Import ZArith QArith Qround Qabs Qpower Lia Lqa.
From stdpp Require Import base option list strings gmap.

Set Default Proof Using "Type".
Local Open Scope Z_scope.

(** ** Outcomes of fallible calls *)

Inductive exn :=
| KeyError
| IndexError
| ValueError
| TypeError
| AttributeError
| InvalidAxis
| NotImplementedError
| RecursionError
| NotModelled.

Inductive result (A : Type) :=
| Ok (a : A)
| Err (e : exn).
Arguments Ok {A} a.
Arguments Err {A} e.

Definition rbind {A B} (r : result A) (k : A -> result B) : result B :=
  match r with
  | Ok a => k a
  | Err e => Err e
  end.

Notation "'let*' x ':=' r 'in' k" := (rbind r (fun x => k))
  (at level 10, x name, r at level 100, k at level 200).

(** ** Index labels

    A label is a Python value used as an index key: a string, or a
    value of another type (represented by an integer). *)

Inductive label :=
| LStr (s : string)
| LInt (n : Z).

#[global] Instance label_eq_dec : EqDecision label.
Proof. solve_decision. Defined.

(** [pd.Index] (flat, one label per position) and [pd.MultiIndex]
    (one tuple of labels per position). *)
Inductive Index :=
| FlatIndex (keys : list label)
| MultiIndex (nlevels : nat) (keys : list (list label)).

Definition index_len (ix : Index) : nat :=
  match ix with
  | FlatIndex ks => length ks
  | MultiIndex _ ks => length ks
  end.

(** Boolean selection [index[mask]]. *)
Fixpoint select {A} (mask : list bool) (l : list A) : list A :=
  match mask, l with
  | b :: mask', x :: l' => if b then x :: select mask' l' else select mask' l'
  | _, _ => []
  end.

Definition index_select (mask : list bool) (ix : Index) : Index :=
  match ix with
  | FlatIndex ks => FlatIndex (select mask ks)
  | MultiIndex n ks => MultiIndex n (select mask ks)
  end.

(** Positional slice [l[:-1]]. *)
Definition but_last {A} (l : list A) : list A := take (length l - 1) l.

(** Positional slice [index[:-1]]. *)
Definition index_but_last (ix : Index) : Index :=
  match ix with
  | FlatIndex ks => FlatIndex (but_last ks)
  | MultiIndex n ks => MultiIndex n (but_last ks)
  end.

(** ** chaining.get_data_mask *)

(** The [ignore_keys] argument: [None], a single string, or a list. *)
Inductive ignore_arg :=
| IgnoreNone
| IgnoreStr (s : string)
| IgnoreList (l : list label).

(** The loop [for key in ignore_keys: if isinstance(key, str) and
    value.startswith(key): return False] of [should_keep]; the result is
    [true] when the loop returns [False]. *)
Fixpoint prefix_hit (value : string) (ignore_keys : list label) : bool :=
  match ignore_keys with
  | [] => false
  | LStr key :: rest =>
      if String.prefix key value then true else prefix_hit value rest
  | LInt _ :: rest => prefix_hit value rest
  end.

Definition should_keep (ignore_keys : list label) (value : label) : bool :=
  if bool_decide (value ∈ ignore_keys) then false
  else match value with
       | LStr v => if prefix_hit v ignore_keys then false else true
       | LInt _ => true
       end.

(** The list that [ignore_keys] denotes once a single string has been
    wrapped ([if isinstance(ignore_keys, str): ignore_keys = [ignore_keys]]). *)
Definition listed (ignore_keys : ignore_arg) : list label :=
  match ignore_keys with
  | IgnoreNone => []
  | IgnoreStr s => [LStr s]
  | IgnoreList l => l
  end.

Definition get_data_mask (index : Index) (ignore_keys : ignore_arg)
  : list bool :=
  match ignore_keys with
  | IgnoreNone => replicate (index_len index) true
  | _ =>
      let ignore_keys := listed ignore_keys in
      match index with
      | MultiIndex _ ks => map (forallb (should_keep ignore_keys)) ks
      | FlatIndex ks => map (should_keep ignore_keys) ks
      end
  end.

(** [value] equals a listed label. *)
Definition equals_listed (keys : list label) (value : label) : Prop :=
  value ∈ keys.

(** [value] is a string that starts with a listed string label. *)
Definition prefixed_by_listed (keys : list label) (value : label) : Prop :=
  exists v k, value = LStr v /\ LStr k ∈ keys /\ String.prefix k v = true.

Definition matches_listed (keys : list label) (value : label) : Prop :=
  equals_listed keys value \/ prefixed_by_listed keys value.

(** ** Cells *)

Inductive num :=
| NaN
| Fin (q : Q)
| Inf (neg : bool).

Definition Qzero (q : Q) : bool := Qeq_bool q 0.
Definition Qneg (q : Q) : bool := negb (Qle_bool 0 q).

Definition num_opp (a : num) : num :=
  match a with
  | NaN => NaN
  | Fin q => Fin (- q)
  | Inf s => Inf (negb s)
  end.

Definition num_add (a b : num) : num :=
  match a, b with
  | NaN, _ | _, NaN => NaN
  | Fin x, Fin y => Fin (x + y)
  | Fin _, Inf s | Inf s, Fin _ => Inf s
  | Inf s, Inf t => if Bool.eqb s t then Inf s else NaN
  end.

Definition num_sub (a b : num) : num := num_add a (num_opp b).

Definition num_mul (a b : num) : num :=
  match a, b with
  | NaN, _ | _, NaN => NaN
  | Fin x, Fin y => Fin (x * y)
  | Fin x, Inf s | Inf s, Fin x =>
      if Qzero x then NaN else Inf (xorb s (Qneg x))
  | Inf s, Inf t => Inf (xorb s t)
  end.

Definition num_div (a b : num) : num :=
  match a, b with
  | NaN, _ | _, NaN => NaN
  | Fin x, Fin y =>
      if Qzero y then (if Qzero x then NaN else Inf (Qneg x))
      else Fin (x / y)
  | Fin _, Inf _ => Fin 0
  | Inf s, Fin y => Inf (xorb s (Qneg y))
  | Inf _, Inf _ => NaN
  end.

Definition num_abs (a : num) : num :=
  match a with
  | NaN => NaN
  | Fin q => Fin (Qabs q)
  | Inf _ => Inf false
  end.

(** [a < b]; every comparison with NaN is [False]. *)
Definition num_ltb (a b : num) : bool :=
  match a, b with
  | NaN, _ | _, NaN => false
  | Fin x, Fin y => negb (Qle_bool y x)
  | Fin _, Inf s => negb s
  | Inf s, Fin _ => s
  | Inf s, Inf t => s && negb t
  end.

Definition isna (a : num) : bool :=
  match a with NaN => true | _ => false end.

(** [fillna(0)] on one cell. *)
Definition fillna0 (a : num) : num :=
  match a with NaN => Fin 0 | _ => a end.

(** Round half to even to an integer (numpy's [rint]). *)
Definition rint (x : Q) : Z :=
  let f := Qfloor x in
  match Qcompare (x - inject_Z f) (1 # 2) with
  | Lt => f
  | Gt => f + 1
  | Eq => if Z.even f then f else f + 1
  end.

Definition pow10 (n : Z) : Q := Qpower (inject_Z 10) n.

(** [round(x, ndigits)] on a finite number: scale by [10^ndigits], round
    half to even, scale back. *)
Definition Qround_nd (x : Q) (ndigits : Z) : Q :=
  inject_Z (rint (x * pow10 ndigits)) / pow10 ndigits.

Definition num_round (ndigits : Z) (a : num) : num :=
  match a with
  | Fin q => Fin (Qround_nd q ndigits)
  | _ => a
  end.

(** Equality of cells up to the representation of a rational. *)
Definition num_eq (a b : num) : Prop :=
  match a, b with
  | NaN, NaN => True
  | Fin x, Fin y => Qeq x y
  | Inf s, Inf t => s = t
  | _, _ => False
  end.

(** [sum(skipna=True)]: NaN entries are skipped, the empty sum is 0. *)
Definition sum_step (acc x : num) : num :=
  if isna x then acc else num_add acc x.

Definition num_sum (l : list num) : num := fold_left sum_step l (Fin 0).

(** A cell that is a finite number or null. *)
Definition finite_or_null (a : num) : Prop :=
  match a with Inf _ => False | _ => True end.

(** The value of a cell with nulls read as 0, the exact sum of a list
    of rationals, and the sum of the first [k] cells of a sequence. *)
Definition value_or_0 (a : num) : Q :=
  match a with Fin q => q | _ => 0%Q end.

Definition Qsum (l : list Q) : Q := foldr Qplus 0%Q l.

Definition prefix_sum (S : list num) (k : nat) : Q :=
  Qsum (map value_or_0 (take k S)).

(** ** Metadata values ([attrs]) *)

#[warnings="-register-all"]
Inductive pyobj :=
| PySet (s : gset string)
| PyDict (d : gmap string pyobj).

(** [o.get(k, default)]. *)
Definition py_get (o : pyobj) (k : string) (dflt : pyobj) : result pyobj :=
  match o with
  | PyDict d => Ok (default dflt (d !! k))
  | PySet _ => Err AttributeError
  end.

(** [o[k]]. *)
Definition py_getitem (o : pyobj) (k : string) : result pyobj :=
  match o with
  | PyDict d => match d !! k with Some v => Ok v | None => Err KeyError end
  | PySet _ => Err TypeError
  end.

(** The strings obtained by iterating over [o] (the members of a set, the
    keys of a dict). *)
Definition py_iter (o : pyobj) : list string :=
  match o with
  | PySet s => elements s
  | PyDict d => elements (dom d)
  end.

(** ** Tables *)

Record Series := mkSeries {
  s_index : Index;
  s_values : list num;
  s_name : option string;
  s_attrs : gmap string pyobj
}.

Record DataFrame := mkDataFrame {
  df_index : Index;
  df_columns : Index;
  df_values : list (list num);
  df_attrs : gmap string pyobj
}.

Definition nrows (df : DataFrame) : nat := index_len (df_index df).
Definition ncols (df : DataFrame) : nat := index_len (df_columns df).

(** The shape invariant of a table: one row per index entry, one cell
    per column in every row. *)
Definition wf_df (df : DataFrame) : Prop :=
  length (df_values df) = nrows df /\
  Forall (fun row => length row = ncols df) (df_values df).

(** ** pandas operations used by the transforms *)

(** [df.loc[:, mask]] and [df.loc[mask]] with a boolean mask. *)
Definition loc_cols (df : DataFrame) (mask : list bool) : DataFrame :=
  mkDataFrame (df_index df) (index_select mask (df_columns df))
    (map (select mask) (df_values df)) (df_attrs df).

Definition loc_rows (df : DataFrame) (mask : list bool) : DataFrame :=
  mkDataFrame (index_select mask (df_index df)) (df_columns df)
    (select mask (df_values df)) (df_attrs df).

(** The vector or scalar that holds totals. *)
Inductive Totals :=
| TotalsVec (idx : Index) (v : list num)
| TotalsScalar (c : num).

(** [data.iloc[:-1, :]], [data.iloc[-1, :]]. *)
Definition iloc_rows_init (df : DataFrame) : DataFrame :=
  mkDataFrame (index_but_last (df_index df)) (df_columns df)
    (but_last (df_values df)) (df_attrs df).

Definition iloc_last_row (df : DataFrame) : result Totals :=
  match last (df_values df) with
  | None => Err IndexError
  | Some r => Ok (TotalsVec (df_columns df) r)
  end.

(** [data.iloc[:, :-1]], [data.iloc[:, -1]]. *)
Definition iloc_cols_init (df : DataFrame) : DataFrame :=
  mkDataFrame (df_index df) (index_but_last (df_columns df))
    (map but_last (df_values df)) (df_attrs df).

Definition iloc_last_col (df : DataFrame) : result Totals :=
  match ncols df with
  | O => Err IndexError
  | S _ => Ok (TotalsVec (df_index df)
                 (map (fun row => default NaN (last row)) (df_values df)))
  end.

(** [data.iloc[-1, -1]]. *)
Definition iloc_last_cell (df : DataFrame) : result Totals :=
  match last (df_values df) with
  | None => Err IndexError
  | Some r =>
      match last r with
      | None => Err IndexError
      | Some c => Ok (TotalsScalar c)
      end
  end.

(** Mask of the positions of a flat index that carry [label]. *)
Definition label_hits (name : string) (ks : list label) : list bool :=
  map (fun k => bool_decide (k = LStr name)) ks.

(** Label lookups are modelled for a flat index in which the label
    occurs at most once.  With a repeated label, or on a [MultiIndex],
    pandas returns a sub-table instead of a vector; those calls are
    reported as [NotModelled]. *)
Definition flat_keys (ix : Index) : result (list label) :=
  match ix with
  | FlatIndex ks => Ok ks
  | MultiIndex _ _ => Err NotModelled
  end.

Definition unique_hit (hits : list bool) : result unit :=
  match select hits hits with
  | [] => Err KeyError
  | [_] => Ok tt
  | _ => Err NotModelled
  end.

(** [data.drop(label, axis=0)], [data.drop(label, axis=1)]. *)
Definition drop_rows (df : DataFrame) (name : string) : result DataFrame :=
  let* ks := flat_keys (df_index df) in
  let hits := label_hits name ks in
  let* _u := unique_hit hits in
  Ok (loc_rows df (map negb hits)).

Definition drop_cols (df : DataFrame) (name : string) : result DataFrame :=
  let* ks := flat_keys (df_columns df) in
  let hits := label_hits name ks in
  let* _u := unique_hit hits in
  Ok (loc_cols df (map negb hits)).

(** [data.loc[label, :]], [data.loc[:, label]], [data.loc[label, label]]. *)
Definition loc_row (df : DataFrame) (name : string) : result Totals :=
  let* ks := flat_keys (df_index df) in
  let hits := label_hits name ks in
  let* _u := unique_hit hits in
  match select hits (df_values df) with
  | row :: _ => Ok (TotalsVec (df_columns df) row)
  | [] => Err KeyError
  end.

Definition loc_col (df : DataFrame) (name : string) : result Totals :=
  let* ks := flat_keys (df_columns df) in
  let hits := label_hits name ks in
  let* _u := unique_hit hits in
  Ok (TotalsVec (df_index df)
        (map (fun row => hd NaN (select hits row)) (df_values df))).

Definition loc_cell (df : DataFrame) (rlabel clabel : string) : result Totals :=
  let* rks := flat_keys (df_index df) in
  let rhits := label_hits rlabel rks in
  let* _u := unique_hit rhits in
  let* cks := flat_keys (df_columns df) in
  let chits := label_hits clabel cks in
  let* _v := unique_hit chits in
  match select rhits (df_values df) with
  | row :: _ => Ok (TotalsScalar (hd NaN (select chits row)))
  | [] => Err KeyError
  end.

(** Column [j] of a table, and the reductions [sum(axis=0)],
    [sum(axis=1)]. *)
Definition column (j : nat) (rows : list (list num)) : list num :=
  map (fun row => nth j row NaN) rows.

Definition sum_axis0 (df : DataFrame) : list num :=
  map (fun j => num_sum (column j (df_values df))) (seq 0 (ncols df)).

Definition sum_axis1 (df : DataFrame) : list num :=
  map num_sum (df_values df).

(** [data.div(totals, axis=axis)]: [axis = 1] divides every row by the
    vector, [axis = 0] divides row [i] by entry [i], a scalar divides
    every cell. *)
Definition df_div (df : DataFrame) (totals : Totals) (axis : option Z)
  : result DataFrame :=
  match totals, axis with
  | TotalsScalar c, _ =>
      Ok (mkDataFrame (df_index df) (df_columns df)
            (map (map (fun x => num_div x c)) (df_values df)) (df_attrs df))
  | TotalsVec _ v, Some 1 =>
      Ok (mkDataFrame (df_index df) (df_columns df)
            (map (fun row => zip_with num_div row v) (df_values df))
            (df_attrs df))
  | TotalsVec _ v, Some 0 =>
      Ok (mkDataFrame (df_index df) (df_columns df)
            (zip_with (fun row t => map (fun x => num_div x t) row)
               (df_values df) v)
            (df_attrs df))
  | TotalsVec _ _, _ => Err NotModelled
  end.

Definition df_map (f : num -> num) (df : DataFrame) : DataFrame :=
  mkDataFrame (df_index df) (df_columns df)
    (map (map f) (df_values df)) (df_attrs df).

(** [df.mul(base)], [df.round(ndigits)], [df.fillna(0)]. *)
Definition df_mul (df : DataFrame) (base : Q) : DataFrame :=
  df_map (fun x => num_mul x (Fin base)) df.

Definition df_round (df : DataFrame) (ndigits : Z) : DataFrame :=
  df_map (num_round ndigits) df.

(** Running sums of a sequence: [cumsum]. *)
Fixpoint cumsum_from (acc : num) (l : list num) : list num :=
  match l with
  | [] => []
  | x :: l' => let a := num_add acc x in a :: cumsum_from a l'
  end.

Definition cumsum (l : list num) : list num :=
  match l with
  | [] => []
  | x :: l' => x :: cumsum_from x l'
  end.

(** [shift(1)]: every entry moves one position down, the first position
    becomes NaN. *)
Definition shift1 (l : list num) : list num :=
  match l with
  | [] => []
  | _ :: _ => NaN :: but_last l
  end.

(** [r.mask(s.isna())]. *)
Definition mask_isna (r s : list num) : list num :=
  zip_with (fun r x => if isna x then NaN else r) r s.

(** The same operations on a table act along axis 0, that is, down
    every column. *)
Fixpoint cumsum_rows_from (acc : list num) (rows : list (list num))
  : list (list num) :=
  match rows with
  | [] => []
  | r :: rows' =>
      let a := zip_with num_add acc r in a :: cumsum_rows_from a rows'
  end.

Definition cumsum_rows (rows : list (list num)) : list (list num) :=
  match rows with
  | [] => []
  | r :: rows' => r :: cumsum_rows_from r rows'
  end.

Definition shift1_rows (n : nat) (rows : list (list num)) : list (list num) :=
  match rows with
  | [] => []
  | _ :: _ => replicate n NaN :: but_last rows
  end.

(** ** Axis selectors *)

Inductive Axis :=
| AxInt (n : Z)
| AxStr (s : string).

(** Modelled from the spec: [axes.resolve_axis] is not among the source
    files.  It maps [0], [1], [2], ["index"], ["columns"], ["both"] to
    [0], [1], [2] (["index"] is 0, ["columns"] is 1, ["both"] is 2) and
    fails with an invalid-axis error on any other value. *)
Definition resolve_axis (axis : Axis) : result Z :=
  match axis with
  | AxInt 0 => Ok 0
  | AxInt 1 => Ok 1
  | AxInt 2 => Ok 2
  | AxInt _ => Err InvalidAxis
  | AxStr s =>
      if String.eqb s "index" then Ok 0
      else if String.eqb s "columns" then Ok 1
      else if String.eqb s "both" then Ok 2
      else Err InvalidAxis
  end.

(** ** transforms/percentages.py: ValuesAndTotals *)

Record ValuesAndTotals := mkVT {
  vt_values : DataFrame;
  vt_totals : Totals;
  vt_axis : Z
}.

Definition from_data (data : DataFrame) (axis : Axis)
    (label_totals : option string) : result ValuesAndTotals :=
  let* axis_resolved := resolve_axis axis in
  let* vt :=
    match label_totals with
    | None =>
        if axis_resolved =? 0 then
          let values := iloc_rows_init data in
          let* totals := iloc_last_row data in
          Ok (values, totals)
        else if axis_resolved =? 1 then
          let values := iloc_cols_init data in
          let* totals := iloc_last_col data in
          Ok (values, totals)
        else
          let values := iloc_cols_init (iloc_rows_init data) in
          let* totals := iloc_last_cell data in
          Ok (values, totals)
    | Some label_totals =>
        if axis_resolved =? 0 then
          let* values := drop_rows data label_totals in
          let* totals := loc_row data label_totals in
          Ok (values, totals)
        else if axis_resolved =? 1 then
          let* values := drop_cols data label_totals in
          let* totals := loc_col data label_totals in
          Ok (values, totals)
        else
          let* values0 := drop_rows data label_totals in
          let* values := drop_cols values0 label_totals in
          let* totals := loc_cell data label_totals label_totals in
          Ok (values, totals)
    end in
  Ok (mkVT (fst vt) (snd vt) axis_resolved).

(** [tolerance = 1e-10]. *)
Definition tolerance : Q := 1 # 10000000000.

(** [abs(a - b) < tolerance]. *)
Definition within_tolerance (a b : num) : bool :=
  num_ltb (num_abs (num_sub a b)) (Fin tolerance).

(** [(abs(sums - totals) < tolerance).all()] for a vector of sums.  The
    sums and a vector of totals carry the same index, so the comparison
    is entry by entry; a scalar is compared with every sum. *)
Definition all_within_tolerance (sums : list num) (totals : Totals) : bool :=
  match totals with
  | TotalsVec _ v => forallb id (zip_with within_tolerance sums v)
  | TotalsScalar c => forallb (fun s => within_tolerance s c) sums
  end.

Definition should_use_apportioned_rounding (self : ValuesAndTotals)
  : result bool :=
  if vt_axis self =? 0 then
    let column_sums := sum_axis0 (vt_values self) in
    Ok (all_within_tolerance column_sums (vt_totals self))
  else if vt_axis self =? 1 then
    let row_sums := sum_axis1 (vt_values self) in
    Ok (all_within_tolerance row_sums (vt_totals self))
  else
    match vt_totals self with
    | TotalsScalar c =>
        Ok (within_tolerance (num_sum (sum_axis0 (vt_values self))) c)
    | TotalsVec _ _ => Err ValueError
    end.

(** ** transforms/percentages.py: round_apportioned *)

(** The function on a sequence of cells (the values of a [Series]). *)
Definition round_apportioned (s : list num) (ndigits : Z) : list num :=
  if ndigits <? 0 then s
  else
    let cumsum := map (num_round ndigits) (cumsum (map fillna0 s)) in
    let prev_baseline := map fillna0 (shift1 cumsum) in
    let rounded := zip_with num_sub cumsum prev_baseline in
    let keep_na := mask_isna rounded s in
    keep_na.

(** The same function applied to a table: every pandas call inside it
    then runs down the rows (axis 0). *)
Definition round_apportioned_df (s : DataFrame) (ndigits : Z) : DataFrame :=
  if ndigits <? 0 then s
  else
    let cumsum :=
      map (map (num_round ndigits))
        (cumsum_rows (map (map fillna0) (df_values s))) in
    let prev_baseline := map (map fillna0) (shift1_rows (ncols s) cumsum) in
    let rounded := zip_with (zip_with num_sub) cumsum prev_baseline in
    let keep_na := zip_with mask_isna rounded (df_values s) in
    mkDataFrame (df_index s) (df_columns s) keep_na (df_attrs s).

(** ** chaining.tag_labels *)

Fixpoint set_nested_key (data : gmap string pyobj) (keys : list string)
    (value : pyobj) : result (gmap string pyobj) :=
  match keys with
  | [] => Err IndexError
  | key :: rest =>
      match rest with
      | [] => Ok (<[key := value]> data)
      | _ :: _ =>
          let data :=
            match data !! key with
            | None => <[key := PyDict ∅]> data
            | Some _ => data
            end in
          match data !! key with
          | Some (PyDict sub) =>
              let* sub' := set_nested_key sub rest value in
              Ok (<[key := PyDict sub']> data)
          | Some (PySet _) => Err TypeError
          | None => Err KeyError
          end
      end
  end.

Fixpoint get_nested_key (data : pyobj) (keys : list string)
  : result (gset string) :=
  match keys with
  | [] =>
      Ok match data with
         | PySet s => s
         | PyDict d => dom d
         end
  | key :: rest =>
      match data with
      | PyDict d =>
          match d !! key with
          | Some v => get_nested_key v rest
          | None => Ok ∅
          end
      | PySet s => if decide (key ∈ s) then Err TypeError else Ok ∅
      end
  end.

(** The loop that collects [labels_to_track]: [kwargs] gives the value of
    a label-bearing keyword, [None] when it is absent or [None]. *)
Definition labels_to_track (key_label_params : list string)
    (kwargs : string -> option string) : list string :=
  omap kwargs key_label_params.

Definition label_path (transform : string) : list string :=
  ["flatbread"; "labels"; transform].

(** The wrapper of [tag_labels(transform)] around a call whose outcome
    is [func_result]. *)
Definition tag_labels (transform : string) (key_label_params : list string)
    (kwargs : string -> option string) (func_result : result DataFrame)
  : result DataFrame :=
  let labels_to_track := labels_to_track key_label_params kwargs in
  let* result := func_result in
  let* existing_labels :=
    get_nested_key (PyDict (df_attrs result)) (label_path transform) in
  let all_labels := existing_labels ∪ list_to_set labels_to_track in
  let* attrs :=
    set_nested_key (df_attrs result) (label_path transform)
      (PySet all_labels) in
  Ok (mkDataFrame (df_index result) (df_columns result) (df_values result)
        attrs).

(** The tracked labels [attrs.get('flatbread', {}).get('labels', {})]. *)
Definition tracked_labels (attrs : gmap string pyobj) : result pyobj :=
  py_get (default (PyDict ∅) (attrs !! "flatbread")) "labels" (PyDict ∅).

(** [tracked.get(category, [])], as the labels it adds to a list. *)
Definition tracked_get (tracked : pyobj) (category : string)
  : result (list label) :=
  let* o := py_get tracked category (PySet ∅) in
  Ok (map LStr (py_iter o)).

(** ** Keyword arguments and tooling.inject_defaults

    The keyword arguments of a transform are a record with one optional
    field per keyword: [None] stands for a keyword that is absent or
    passed as [None].  A keyword that is still [None] after the defaults
    have been injected is bound to the default of the signature. *)

Record pct_kwargs := mkPctKw {
  kw_axis : option Axis;
  kw_label_n : option string;
  kw_label_pct : option string;
  kw_label_totals : option string;
  kw_ignore_keys : ignore_arg;
  kw_ndigits : option Z;
  kw_base : option Q;
  kw_apportioned_rounding : option bool
}.

Record totals_kwargs := mkTotalsKw {
  tk_axis : option Axis;
  tk_label : option string;
  tk_ignore_keys : ignore_arg;
  tk_fill : option string
}.

(** The configuration table [DEFAULTS['transforms']]: per transform the
    default keyword values and the names listed under ['key_labels']. *)
Record Defaults := mkDefaults {
  percentages_defaults : pct_kwargs;
  percentages_key_labels : list string;
  totals_defaults : totals_kwargs;
  totals_key_labels : list string
}.

(** [if kwargs.get(key) is None: kwargs[key] = val] for one keyword. *)
Definition inject {A} (val kwarg : option A) : option A :=
  match kwarg with
  | None => val
  | Some _ => kwarg
  end.

Definition inject_ignore (val kwarg : ignore_arg) : ignore_arg :=
  match kwarg with
  | IgnoreNone => val
  | _ => kwarg
  end.

Definition inject_defaults_pct (defaults kwargs : pct_kwargs) : pct_kwargs :=
  mkPctKw
    (inject (kw_axis defaults) (kw_axis kwargs))
    (inject (kw_label_n defaults) (kw_label_n kwargs))
    (inject (kw_label_pct defaults) (kw_label_pct kwargs))
    (inject (kw_label_totals defaults) (kw_label_totals kwargs))
    (inject_ignore (kw_ignore_keys defaults) (kw_ignore_keys kwargs))
    (inject (kw_ndigits defaults) (kw_ndigits kwargs))
    (inject (kw_base defaults) (kw_base kwargs))
    (inject (kw_apportioned_rounding defaults)
       (kw_apportioned_rounding kwargs)).

Definition inject_defaults_totals (defaults kwargs : totals_kwargs)
  : totals_kwargs :=
  mkTotalsKw
    (inject (tk_axis defaults) (tk_axis kwargs))
    (inject (tk_label defaults) (tk_label kwargs))
    (inject_ignore (tk_ignore_keys defaults) (tk_ignore_keys kwargs))
    (inject (tk_fill defaults) (tk_fill kwargs)).

(** The label-bearing keywords by name, as [tag_labels] reads them from
    [kwargs]. *)
Definition pct_label_kwarg (kwargs : pct_kwargs) (param_name : string)
  : option string :=
  if String.eqb param_name "label_pct" then kw_label_pct kwargs
  else if String.eqb param_name "label_n" then kw_label_n kwargs
  else if String.eqb param_name "label_totals" then kw_label_totals kwargs
  else None.

Definition totals_label_kwarg (kwargs : totals_kwargs) (param_name : string)
  : option string :=
  if String.eqb param_name "label" then tk_label kwargs
  else if String.eqb param_name "_fill" then tk_fill kwargs
  else None.

(** Modelled from the spec: the configuration file behind [DEFAULTS] is
    not among the source files.  The totals label defaults to "Totals",
    the labels of [add_percentages] to "n" and "pct", and the
    label-bearing parameters are the totals label and the percentage
    label. *)
Definition DEFAULTS_spec : Defaults :=
  mkDefaults
    (mkPctKw None (Some "n") (Some "pct") None IgnoreNone None None None)
    ["label_pct"]
    (mkTotalsKw None (Some "Totals") IgnoreNone None)
    ["label"].

(** ** transforms/percentages.py: as_percentages *)

(** Series operations: [data.iloc[-1]], [data.loc[label]],
    [data.iloc[:-1]], [data.drop(label)]. *)
Definition series_iloc_last (data : Series) : result num :=
  match last (s_values data) with
  | None => Err IndexError
  | Some c => Ok c
  end.

Definition series_loc (data : Series) (name : string) : result num :=
  let* ks := flat_keys (s_index data) in
  let hits := label_hits name ks in
  let* _u := unique_hit hits in
  match select hits (s_values data) with
  | c :: _ => Ok c
  | [] => Err KeyError
  end.

Definition series_iloc_init (data : Series) : Series :=
  mkSeries (index_but_last (s_index data)) (but_last (s_values data))
    (s_name data) (s_attrs data).

Definition series_drop (data : Series) (name : string) : result Series :=
  let* ks := flat_keys (s_index data) in
  let hits := label_hits name ks in
  let* _u := unique_hit hits in
  Ok (mkSeries (index_select (map negb hits) (s_index data))
        (select (map negb hits) (s_values data))
        (s_name data) (s_attrs data)).

Definition series_map (f : num -> num) (data : Series) : Series :=
  mkSeries (s_index data) (f <$> s_values data) (s_name data) (s_attrs data).

Definition series_with (data : Series) (v : list num) : Series :=
  mkSeries (s_index data) v (s_name data) (s_attrs data).

Definition rename (data : Series) (name : string) : Series :=
  mkSeries (s_index data) (s_values data) (Some name) (s_attrs data).

Module percentages.

Definition _resolve_ignored_keys (attrs : gmap string pyobj) (axis : Z)
    (ignore_keys : ignore_arg) : result (list label) :=
  let keys_to_ignore := listed ignore_keys in
  let* tracked := tracked_labels attrs in
  let* pct := tracked_get tracked "percentage" in
  Ok (keys_to_ignore ++ pct).

(** The body registered for [pd.Series]. *)
Definition as_percentages_series_body (data : Series) (label_pct : string)
    (label_totals : option string) (ndigits : Z) (base : Q)
    (apportioned_rounding : option bool) : result Series :=
  let* total :=
    match label_totals with
    | None => series_iloc_last data
    | Some l => series_loc data l
    end in
  let pcts :=
    series_map (fun x => num_mul x (Fin base))
      (series_map (fun x => num_div x total) data) in
  if ndigits =? -1 then Ok (rename pcts label_pct)
  else
    let* apportioned_rounding :=
      match apportioned_rounding with
      | Some b => Ok b
      | None =>
          let* values :=
            match label_totals with
            | None => Ok (series_iloc_init data)
            | Some l => series_drop data l
            end in
          Ok (within_tolerance (num_sum (s_values values)) total)
      end in
    let rounded :=
      if apportioned_rounding
      then series_with pcts (round_apportioned (s_values pcts) ndigits)
      else series_map (num_round ndigits) pcts in
    Ok (rename rounded label_pct).

(** The body registered for [pd.DataFrame]. *)
Definition as_percentages_frame_body (df : DataFrame) (axis : Axis)
    (label_totals : option string) (ignore_keys : ignore_arg)
    (ndigits : Z) (base : Q) (apportioned_rounding : option bool)
  : result DataFrame :=
  let* axis := resolve_axis axis in
  let* keys_to_ignore := _resolve_ignored_keys (df_attrs df) axis ignore_keys in
  let cols := get_data_mask (df_columns df) (IgnoreList keys_to_ignore) in
  let data := loc_cols df cols in
  let* vt := from_data data (AxInt axis) label_totals in
  let axis :=
    if axis =? 1 then Some 0 else if axis =? 0 then Some 1 else None in
  let* quotients := df_div data (vt_totals vt) axis in
  let pcts := df_mul quotients base in
  if ndigits <? 0 then Ok pcts
  else
    let* apportioned_rounding :=
      match apportioned_rounding with
      | Some b => Ok b
      | None => should_use_apportioned_rounding vt
      end in
    Ok (if apportioned_rounding
        then round_apportioned_df pcts ndigits
        else df_round pcts ndigits).

(** The decorated functions: [inject_defaults] outermost, then (for the
    table) [tag_labels('percentages')], then the body with the defaults
    of its signature. *)
Definition as_percentages_series (DEFAULTS : Defaults) (data : Series)
    (kwargs : pct_kwargs) : result Series :=
  let kwargs := inject_defaults_pct (percentages_defaults DEFAULTS) kwargs in
  as_percentages_series_body data
    (default "pct"%string (kw_label_pct kwargs))
    (kw_label_totals kwargs)
    (default (-1) (kw_ndigits kwargs))
    (default 1%Q (kw_base kwargs))
    (kw_apportioned_rounding kwargs).

Definition as_percentages_frame (DEFAULTS : Defaults) (df : DataFrame)
    (kwargs : pct_kwargs) : result DataFrame :=
  let kwargs := inject_defaults_pct (percentages_defaults DEFAULTS) kwargs in
  tag_labels "percentages" (percentages_key_labels DEFAULTS)
    (pct_label_kwarg kwargs)
    (as_percentages_frame_body df
       (default (AxInt 2) (kw_axis kwargs))
       (kw_label_totals kwargs)
       (kw_ignore_keys kwargs)
       (default (-1) (kw_ndigits kwargs))
       (default 1%Q (kw_base kwargs))
       (kw_apportioned_rounding kwargs)).

(** Dispatch of [as_percentages] on the type of [data]. *)
Inductive pandas_obj :=
| ObjSeries (s : Series)
| ObjFrame (df : DataFrame)
| ObjOther.

Definition as_percentages (DEFAULTS : Defaults) (data : pandas_obj)
    (kwargs : pct_kwargs) : result pandas_obj :=
  match data with
  | ObjSeries s =>
      let* r := as_percentages_series DEFAULTS s kwargs in Ok (ObjSeries r)
  | ObjFrame df =>
      let* r := as_percentages_frame DEFAULTS df kwargs in Ok (ObjFrame r)
  | ObjOther => Err NotImplementedError
  end.

End percentages.

(** ** transforms/totals.py *)

(** Modelled from the spec: part of [aggregation.add_agg], which is not
    among the source files.  The key under which an aggregate is
    appended to an index is the label itself on a flat index and, on a
    [MultiIndex], the label followed by [_fill] in the remaining levels
    ([_fill] is documented in [totals.py] as the fill value for the
    empty positions of such keys). *)
Definition agg_key_flat (name : string) : label := LStr name.

Definition agg_key_multi (nlevels : nat) (name fill : string) : list label :=
  LStr name :: replicate (nlevels - 1) (LStr fill).

Definition index_append (ix : Index) (name fill : string) : result Index :=
  match ix with
  | FlatIndex ks =>
      if bool_decide (agg_key_flat name ∈ ks) then Err ValueError
      else Ok (FlatIndex (ks ++ [agg_key_flat name]))
  | MultiIndex n ks =>
      if bool_decide (agg_key_multi n name fill ∈ ks) then Err ValueError
      else Ok (MultiIndex n (ks ++ [agg_key_multi n name fill]))
  end.

(** Modelled from the spec: [aggregation.add_agg] is not among the
    source files.  For the sum it appends one row (axis 0) or one column
    (axis 1) labelled [label] that holds the sums of the rows (columns)
    which [ignore_keys] does not mark as margins; a label that collides
    with an existing index entry is a value error.  The metadata of the
    input is carried over to the result. *)
Definition add_agg_sum (data : DataFrame) (axis : Z) (name : string)
    (ignore_keys : list label) (_fill : string) : result DataFrame :=
  if axis =? 0 then
    let mask := get_data_mask (df_index data) (IgnoreList ignore_keys) in
    let* index := index_append (df_index data) name _fill in
    Ok (mkDataFrame index (df_columns data)
          (df_values data ++ [sum_axis0 (loc_rows data mask)])
          (df_attrs data))
  else
    let mask := get_data_mask (df_columns data) (IgnoreList ignore_keys) in
    let* columns := index_append (df_columns data) name _fill in
    Ok (mkDataFrame (df_index data) columns
          (map (fun row => row ++ [num_sum (select mask row)]) (df_values data))
          (df_attrs data)).

Module totals.

Definition _resolve_ignored_keys (attrs : gmap string pyobj) (axis : Z)
    (ignore_keys : ignore_arg) : result (list label) :=
  let keys_to_ignore := listed ignore_keys in
  let* tracked := tracked_labels attrs in
  let* tot := tracked_get tracked "totals" in
  let keys_to_ignore := keys_to_ignore ++ tot in
  if axis =? 1 then
    let* pct := tracked_get tracked "percentages" in
    let* dif := tracked_get tracked "differences" in
    Ok (keys_to_ignore ++ pct ++ dif)
  else Ok keys_to_ignore.

(** One call of the decorated [add_totals]; [self] is the function that
    the body reaches through the name [add_totals]. *)
Definition add_totals_call (DEFAULTS : Defaults)
    (self : DataFrame -> totals_kwargs -> result DataFrame)
    (data : DataFrame) (kwargs : totals_kwargs) : result DataFrame :=
  let kwargs := inject_defaults_totals (totals_defaults DEFAULTS) kwargs in
  tag_labels "totals" (totals_key_labels DEFAULTS)
    (totals_label_kwarg kwargs)
    (let axis := default (AxInt 2) (tk_axis kwargs) in
     let name := default "Totals"%string (tk_label kwargs) in
     let ignore_keys := tk_ignore_keys kwargs in
     let _fill := default ""%string (tk_fill kwargs) in
     let* axis := resolve_axis axis in
     let* keys_to_ignore :=
       _resolve_ignored_keys (df_attrs data) axis ignore_keys in
     if axis <? 2 then
       add_agg_sum data axis name keys_to_ignore _fill
     else
       let* output0 :=
         self data
           (mkTotalsKw (Some (AxInt 0)) (Some name)
              (IgnoreList keys_to_ignore) (Some _fill)) in
       self output0
         (mkTotalsKw (Some (AxInt 1)) (Some name)
            (IgnoreList keys_to_ignore) (Some _fill))).

(** [add_totals]: the calls made for [axis = 2] pass axis 0 and 1, so the
    recursion stops at depth one. *)
Definition add_totals (DEFAULTS : Defaults) (data : DataFrame)
    (kwargs : totals_kwargs) : result DataFrame :=
  add_totals_call DEFAULTS
    (add_totals_call DEFAULTS (fun _ _ => Err RecursionError))
    data kwargs.

(** The labels read from a stored [ignore_keys] value. *)
Definition stored_ignore_keys (o : pyobj) : ignore_arg :=
  IgnoreList (map LStr (py_iter o)).

Definition drop_totals (data : DataFrame) (ignore_keys : ignore_arg)
  : result DataFrame :=
  let* ignore_keys :=
    match ignore_keys with
    | IgnoreNone =>
        let* fb := py_getitem (PyDict (df_attrs data)) "flatbread" in
        let* tot := py_getitem fb "totals" in
        let* ik := py_getitem tot "ignore_keys" in
        Ok (stored_ignore_keys ik)
    | _ => Ok ignore_keys
    end in
  let mask := get_data_mask (df_index data) ignore_keys in
  Ok (loc_rows data mask).

End totals.

(** ** A one-pass reading of the apportioned rounding

    [ra_direct nd a p S] walks [S] once with the running sum [a] and the
    previous rounded running sum [p]; the properties of
    [round_apportioned] are derived through it. *)
Fixpoint ra_direct (nd : Z) (a p : Q) (S : list num) : list num :=
  match S with
  | [] => []
  | x :: S' =>
      let c := (a + value_or_0 x)%Q in
      let r := Qround_nd c nd in
      (if isna x then NaN else Fin (r - p)) :: ra_direct nd c r S'
  end.

(** ** Notions used to state the properties *)






(** The rule as the specification words it: on a flat index an entry is
    a margin exactly when its key equals a listed label; on a
    hierarchical index exactly when every level matches. *)
Definition mask_rule_as_stated (index : Index) (ignore_keys : ignore_arg)
  : Prop :=
  let keys := listed ignore_keys in
  let mask := get_data_mask index ignore_keys in
  match index with
  | FlatIndex ks =>
      forall i k, ks !! i = Some k ->
        (mask !! i = Some false <-> equals_listed keys k)
  | MultiIndex _ ks =>
      forall i t, ks !! i = Some t ->
        (mask !! i = Some false <-> Forall (matches_listed keys) t)
  end.


(** A cell that holds a finite number other than 0. *)
Definition nonzero_finite (a : num) : Prop :=
  exists q, a = Fin q /\ ~ (q == 0)%Q.

(** The table of the tests with its column totals in the last row. *)
Definition test_table_totals_row : DataFrame :=
  mkDataFrame
    (FlatIndex [LInt 0; LInt 1; LInt 2; LStr "Totals"])
    (FlatIndex [LStr "A"; LStr "B"])
    [[Fin 10; Fin 15]; [Fin 20; Fin 25]; [Fin 30; Fin 20]; [Fin 60; Fin 60]]
    ∅.

(** ** Tables and arguments of the worked cases *)

(** Three equal values 100/3 and their total, after [add_totals]: down a
    column (the table of the rounding tests) and along a row. *)
Definition thirds_in_a_column : DataFrame :=
  mkDataFrame
    (FlatIndex [LInt 0; LInt 1; LInt 2; LStr "Totals"])
    (FlatIndex [LInt 0; LStr "Totals"])
    [[Fin (100 # 3); Fin (100 # 3)];
     [Fin (100 # 3); Fin (100 # 3)];
     [Fin (100 # 3); Fin (100 # 3)];
     [Fin 100; Fin 100]]
    ∅.

Definition thirds_in_a_row : DataFrame :=
  mkDataFrame
    (FlatIndex [LInt 0])
    (FlatIndex [LStr "a"; LStr "b"; LStr "c"; LStr "Totals"])
    [[Fin (100 # 3); Fin (100 # 3); Fin (100 # 3); Fin 100]]
    ∅.

(** The keyword arguments of the rounding test: [axis = 0],
    [ndigits = 0], [base = 100], [apportioned_rounding = False]. *)
Definition kwargs_plain_rounding : pct_kwargs :=
  mkPctKw (Some (AxInt 0)) None None None IgnoreNone (Some 0) (Some 100%Q)
    (Some false).

(** A series of two values and their total, and keyword arguments that
    pass every parameter of the series implementation explicitly, with
    [ndigits = -2] and with [ndigits = -1]. *)
Definition series_30_70 : Series :=
  mkSeries (FlatIndex [LStr "a"; LStr "b"; LStr "Totals"])
    [Fin 30; Fin 70; Fin 100] None ∅.

Definition kwargs_ndigits_minus_2 : pct_kwargs :=
  mkPctKw None None (Some "pct"%string) (Some "Totals"%string) IgnoreNone
    (Some (-2)) (Some 100%Q) (Some false).

Definition kwargs_ndigits_minus_1 : pct_kwargs :=
  mkPctKw None None (Some "pct"%string) (Some "Totals"%string) IgnoreNone
    (Some (-1)) (Some 100%Q) (Some false).

(** The metadata that [tag_labels('percentages')] writes for the label
    "pct". *)
Definition attrs_tracked_pct : gmap string pyobj :=
  {[ "flatbread"%string :=
       PyDict {[ "labels"%string :=
         PyDict {[ "percentages"%string := PySet {[ "pct"%string ]} ]} ]} ]}.

(** A table with a column of earlier percentages labelled "pct" and the
    metadata that records that label. *)
Definition table_with_pct (attrs : gmap string pyobj) : DataFrame :=
  mkDataFrame
    (FlatIndex [LInt 0; LInt 1])
    (FlatIndex [LStr "A"; LStr "Totals"; LStr "pct"])
    [[Fin 10; Fin 40; Fin 25]; [Fin 30; Fin 40; Fin 75]]
    attrs.

Definition kwargs_label_pct : pct_kwargs :=
  mkPctKw None None (Some "pct"%string) None IgnoreNone None None None.

(** The entry [attrs['flatbread'][k]], when [attrs['flatbread']] is a
    dict that has it. *)
Definition flatbread_slot (attrs : gmap string pyobj) (k : string)
  : option pyobj :=
  match attrs !! "flatbread"%string with
  | Some (PyDict d) => d !! k
  | _ => None
  end.

(** A function on tables that leaves [attrs['flatbread']['totals']] as
    it finds it. *)
Definition keeps_totals_slot
    (f : DataFrame -> totals_kwargs -> result DataFrame) : Prop :=
  forall data kwargs out,
    f data kwargs = Ok out ->
    (exists d, df_attrs out !! "flatbread"%string = Some (PyDict d)) /\
    flatbread_slot (df_attrs out) "totals" =
    flatbread_slot (df_attrs data) "totals".

(** The table of the tests, the same table after [add_totals] on both
    axes, and the metadata that [tag_labels('totals')] writes for the
    label "Totals". *)
Definition test_table : DataFrame :=
  mkDataFrame
    (FlatIndex [LInt 0; LInt 1; LInt 2])
    (FlatIndex [LStr "A"; LStr "B"])
    [[Fin 10; Fin 15]; [Fin 20; Fin 25]; [Fin 30; Fin 20]]
    ∅.

Definition table_with_totals (attrs : gmap string pyobj) : DataFrame :=
  mkDataFrame
    (FlatIndex [LInt 0; LInt 1; LInt 2; LStr "Totals"])
    (FlatIndex [LStr "A"; LStr "B"; LStr "Totals"])
    [[Fin 10; Fin 15; Fin 25]; [Fin 20; Fin 25; Fin 45];
     [Fin 30; Fin 20; Fin 50]; [Fin 60; Fin 60; Fin 120]]
    attrs.

Definition attrs_tracked_totals : gmap string pyobj :=
  {[ "flatbread"%string :=
       PyDict {[ "labels"%string :=
         PyDict {[ "totals"%string := PySet {[ "Totals"%string ]} ]} ]} ]}.

Definition no_kwargs : totals_kwargs := mkTotalsKw None None IgnoreNone None.

(** No row label of the table matches [name]: on a flat index no key,
    on a hierarchical index no level of any key. *)
Definition no_row_matches (data : DataFrame) (name : string) : Prop :=
  match df_index data with
  | FlatIndex ks => Forall (fun k => ~ matches_listed [LStr name] k) ks
  | MultiIndex _ ks =>
      Forall (Forall (fun v => ~ matches_listed [LStr name] v)) ks
  end.

(** The round trip as the specification words it: after
    [add_totals(T, label=L)], [drop_totals] with [ignore_keys = L] gives
    back the rows of [T]. *)
Definition roundtrip_as_stated (DEFAULTS : Defaults) (data : DataFrame)
    (name : string) : Prop :=
  forall kwargs out out',
    tk_label kwargs = Some name ->
    totals.add_totals DEFAULTS data kwargs = Ok out ->
    totals.drop_totals out (IgnoreStr name) = Ok out' ->
    df_index out' = df_index data /\ df_values out' = df_values data.

(** A table with a data row whose label starts with "Totals". *)
Definition table_totals_2023 : DataFrame :=
  mkDataFrame
    (FlatIndex [LStr "Sales 2023"; LStr "Totals 2023"])
    (FlatIndex [LStr "A"; LStr "B"])
    [[Fin 1; Fin 2]; [Fin 3; Fin 4]]
    ∅.

(** ** Notions used by the further properties *)


(** Every row reaches column [j]. *)
Definition reaches (j : nat) (rows : list (list num)) : Prop :=
  Forall (fun row => (j < length row)%nat) rows.

(** A sequence of three thirds with a null in between. *)
Definition thirds_with_null : list num :=
  [Fin (100 # 3); NaN; Fin (100 # 3); Fin (100 # 3)].



(** The set that [get_nested_key] returns for a stored value. *)
Definition as_set (value : pyobj) : gset string :=
  match value with
  | PySet s => s
  | PyDict d => dom d
  end.

(** The flat index [ix] carries [name] exactly once, at the position
    after the keys [before] and ahead of the keys [after]. *)
Definition label_once_at (ix : Index) (name : string)
    (before after : list label) : Prop :=
  ix = FlatIndex (before ++ LStr name :: after) /\
  (LStr name ∉ before) /\ (LStr name ∉ after).

(** The flat index [ix] ends in [name] and carries it nowhere else. *)
Definition ends_with_label (ix : Index) (name : string) : Prop :=
  exists before, label_once_at ix name before [].

(** A table whose totals sit in a row and a column labelled "Totals" that
    are not the last ones, and a table without rows. *)
Definition table_totals_inside : DataFrame :=
  mkDataFrame
    (FlatIndex [LInt 0; LStr "Totals"; LInt 1])
    (FlatIndex [LStr "Totals"; LStr "A"; LStr "B"])
    [[Fin 25; Fin 10; Fin 15]; [Fin 70; Fin 30; Fin 40];
     [Fin 45; Fin 20; Fin 25]]
    ∅.

Definition table_without_rows : DataFrame :=
  mkDataFrame (FlatIndex []) (FlatIndex [LStr "A"; LStr "B"]) [] ∅.

(** ** transforms/totals.py: add_subtotals

    [aggregation.add_subagg], which inserts the subtotals of one level,
    is not among the source files.  The wrappers around it are modelled
    with [add_subagg] as a parameter, and what is proved about them
    holds for whatever [add_subagg] does.  So is the configuration
    [DEFAULTS['transforms']['subtotals']]: of its entries only the
    defaults of [label] and [ignore_keys] can take effect, because
    [add_subtotals] passes every other keyword with a value that is not
    [None]. *)

Inductive Level :=
| LevelInt (n : Z)
| LevelName (s : string).

(** The [level] argument of [add_subtotals]: one level or a list. *)
Inductive level_arg :=
| OneLevel (l : Level)
| LevelList (ls : list Level).

Definition add_subagg_type : Type :=
  DataFrame -> Z -> Level -> option string -> bool -> list label -> bool ->
  string -> result DataFrame.

(** [kwargs[param_name]] as [tag_labels] reads it from the keywords of
    [_add_subtotals]: [Ok None] for a keyword that is absent or [None],
    [Ok (Some s)] for a string.  A value that is not a string would be
    added to the tracked labels as it is; the sets of labels of this
    model hold strings only, so such a call is reported as
    [NotModelled]. *)
Definition subtotals_label_kwarg (axis : Axis) (level : Level)
    (name : option string) (ignore_keys : ignore_arg) (_fill : string)
    (param_name : string) : result (option string) :=
  if String.eqb param_name "label" then Ok name
  else if String.eqb param_name "_fill" then Ok (Some _fill)
  else if String.eqb param_name "axis" then
    match axis with AxStr s => Ok (Some s) | AxInt _ => Err NotModelled end
  else if String.eqb param_name "level" then
    match level with
    | LevelName s => Ok (Some s)
    | LevelInt _ => Err NotModelled
    end
  else if String.eqb param_name "ignore_keys" then
    match ignore_keys with
    | IgnoreNone => Ok None
    | IgnoreStr s => Ok (Some s)
    | IgnoreList _ => Err NotModelled
    end
  else if String.eqb param_name "include_level_name" then Err NotModelled
  else if String.eqb param_name "skip_single_rows" then Err NotModelled
  else Ok None.

Definition is_ok {A} (r : result A) : bool :=
  match r with Ok _ => true | Err _ => false end.

Definition ok_or_none {A} (r : result (option A)) : option A :=
  match r with Ok o => o | Err _ => None end.

(** One call of the decorated [_add_subtotals]: [inject_defaults]
    outermost, then [tag_labels('totals')] (with the key labels of the
    totals configuration), then the body; [self] is the function that
    the body reaches through the name [_add_subtotals]. *)
Definition _add_subtotals_call (DEFAULTS : Defaults)
    (default_label : option string) (default_ignore_keys : ignore_arg)
    (add_subagg : add_subagg_type)
    (self : DataFrame -> Axis -> Level -> option string -> bool ->
            ignore_arg -> bool -> string -> result DataFrame)
    (data : DataFrame) (axis : Axis) (level : Level) (name : option string)
    (include_level_name : bool) (ignore_keys : ignore_arg)
    (skip_single_rows : bool) (_fill : string) : result DataFrame :=
  let name := inject default_label name in
  let ignore_keys := inject_ignore default_ignore_keys ignore_keys in
  let kwargs := subtotals_label_kwarg axis level name ignore_keys _fill in
  if forallb (fun param_name => is_ok (kwargs param_name))
       (totals_key_labels DEFAULTS)
  then
    tag_labels "totals" (totals_key_labels DEFAULTS)
      (fun param_name => ok_or_none (kwargs param_name))
      (let* axis := resolve_axis axis in
       let* keys_to_ignore :=
         totals._resolve_ignored_keys (df_attrs data) axis ignore_keys in
       if axis <? 2 then
         add_subagg data axis level name include_level_name keys_to_ignore
           skip_single_rows _fill
       else
         let* output0 :=
           self data (AxInt 0) level name include_level_name
             (IgnoreList keys_to_ignore) skip_single_rows _fill in
         self output0 (AxInt 1) level name include_level_name
           (IgnoreList keys_to_ignore) skip_single_rows _fill)
  else Err NotModelled.

(** [_add_subtotals]: the calls made for [axis = 2] pass axis 0 and 1, so
    the recursion stops at depth one. *)
Definition _add_subtotals (DEFAULTS : Defaults)
    (default_label : option string) (default_ignore_keys : ignore_arg)
    (add_subagg : add_subagg_type) :=
  _add_subtotals_call DEFAULTS default_label default_ignore_keys add_subagg
    (_add_subtotals_call DEFAULTS default_label default_ignore_keys add_subagg
       (fun _ _ _ _ _ _ _ _ => Err RecursionError)).

(** The loop [for single_level in level] of [add_subtotals]. *)
Fixpoint add_subtotals_levels (DEFAULTS : Defaults)
    (default_label : option string) (default_ignore_keys : ignore_arg)
    (add_subagg : add_subagg_type)
    (output : DataFrame) (axis : Axis) (level : list Level)
    (name : option string) (include_level_name : bool)
    (ignore_keys : ignore_arg) (skip_single_rows : bool) (_fill : string)
  : result DataFrame :=
  match level with
  | [] => Ok output
  | single_level :: rest =>
      let* output :=
        _add_subtotals DEFAULTS default_label default_ignore_keys add_subagg
          output axis single_level name include_level_name ignore_keys
          skip_single_rows _fill in
      add_subtotals_levels DEFAULTS default_label default_ignore_keys
        add_subagg output axis rest name include_level_name ignore_keys
        skip_single_rows _fill
  end.

Definition add_subtotals (DEFAULTS : Defaults)
    (default_label : option string) (default_ignore_keys : ignore_arg)
    (add_subagg : add_subagg_type)
    (data : DataFrame) (axis : Axis) (level : level_arg)
    (name : option string) (include_level_name : bool)
    (ignore_keys : ignore_arg) (skip_single_rows : bool) (_fill : string)
  : result DataFrame :=
  match level with
  | OneLevel l =>
      _add_subtotals DEFAULTS default_label default_ignore_keys add_subagg
        data axis l name include_level_name ignore_keys skip_single_rows
        _fill
  | LevelList ls =>
      add_subtotals_levels DEFAULTS default_label default_ignore_keys
        add_subagg data axis ls name include_level_name ignore_keys
        skip_single_rows _fill
  end.

(** A stand-in for [add_subagg] that treats the whole table as one group
    and appends its sum. *)
Definition add_subagg_one_group : add_subagg_type :=
  fun data axis _level name _include ignore_keys _skip _fill =>
    add_agg_sum data axis (default "Subtotals"%string name) ignore_keys _fill.

(** The test table with a row of subtotals appended and the label
    "Subtotals" tracked as a totals label. *)
Definition table_with_subtotals : DataFrame :=
  mkDataFrame
    (FlatIndex [LInt 0; LInt 1; LInt 2; LStr "Subtotals"])
    (FlatIndex [LStr "A"; LStr "B"])
    [[Fin 10; Fin 15]; [Fin 20; Fin 25]; [Fin 30; Fin 20]; [Fin 60; Fin 60]]
    {[ "flatbread"%string :=
         PyDict {[ "labels"%string :=
           PyDict {[ "totals"%string := PySet {[ "Subtotals"%string ]} ]} ]} ]}.

(** * Properties *)

(** ** The data mask *)

Lemma prefix_hit_spec (v : string) (keys : list label) :
  prefix_hit v keys = true <->
  exists k, LStr k ∈ keys /\ String.prefix k v = true.
Proof.
  induction keys as [|[k|n] keys IH]; simpl.
  - split; [discriminate|]. intros (k & Hk & _). by apply elem_of_nil in Hk.
  - destruct (String.prefix k v) eqn:Hp.
    + split; [|done]. intros _. exists k. split; [left|done].
    + rewrite IH. split; intros (k' & Hin & Hk').
      * exists k'. split; [by right|done].
      * exists k'. split; [|done].
        apply elem_of_cons in Hin as [Heq|Hin]; [|done].
        injection Heq as ->. congruence.
  - rewrite IH. split; intros (k' & Hin & Hk'); exists k'; (split; [|done]).
    + by right.
    + apply elem_of_cons in Hin as [Heq|Hin]; [discriminate|done].
Qed.

Lemma should_keep_false (keys : list label) (value : label) :
  should_keep keys value = false <-> matches_listed keys value.
Proof.
  unfold should_keep, matches_listed, equals_listed, prefixed_by_listed.
  case_bool_decide as Hin.
  - split; [by left|done].
  - destruct value as [v|n].
    + destruct (prefix_hit v keys) eqn:Hp.
      * split; [|done]. intros _. right.
        apply prefix_hit_spec in Hp as (k & Hk & Hpk). by exists v, k.
      * split; [discriminate|]. intros [Hl|(v' & k & Heq & Hk & Hpk)]; [done|].
        injection Heq as <-.
        assert (prefix_hit v keys = true) by (apply prefix_hit_spec; eauto).
        congruence.
    + split; [discriminate|]. intros [Hl|(v' & k & Heq & _)]; [done|discriminate].
Qed.

Lemma should_keep_true (keys : list label) (value : label) :
  should_keep keys value = true <-> ~ matches_listed keys value.
Proof.
  rewrite <- should_keep_false. destruct (should_keep keys value); split; auto; try done.
Qed.

Lemma forallb_should_keep_false (keys : list label) (t : list label) :
  forallb (should_keep keys) t = false <-> Exists (matches_listed keys) t.
Proof.
  induction t as [|v t IH]; simpl.
  - split; [discriminate|]. intros H. inversion H.
  - rewrite andb_false_iff, IH, should_keep_false, Exists_cons. tauto.
Qed.

Lemma should_keep_nil (value : label) : should_keep [] value = true.
Proof.
  apply should_keep_true. intros [H|(v & k & _ & H & _)];
    by apply elem_of_nil in H.
Qed.

Lemma get_data_mask_listed (index : Index) (ignore_keys : ignore_arg) :
  get_data_mask index ignore_keys =
  match index with
  | MultiIndex _ ks => map (forallb (should_keep (listed ignore_keys))) ks
  | FlatIndex ks => map (should_keep (listed ignore_keys)) ks
  end.
Proof.
  destruct ignore_keys; try done. simpl.
  destruct index as [ks|n ks]; simpl.
  - induction ks as [|k ks IH]; simpl; [done|].
    by rewrite IH, should_keep_nil.
  - induction ks as [|k ks IH]; simpl; [done|]. rewrite IH. f_equal.
    induction k as [|v k IHk]; simpl; [done|].
    by rewrite <- IHk, should_keep_nil.
Qed.

Lemma get_data_mask_length (index : Index) (ignore_keys : ignore_arg) :
  length (get_data_mask index ignore_keys) = index_len index.
Proof.
  rewrite get_data_mask_listed. destruct index; simpl; by rewrite length_map.
Qed.

(** C3, counterexample: a flat key that only starts with a listed label
    is marked as margin, and so is a tuple with a single matching level. *)
Lemma mask_rule_as_stated_fails :
  ~ mask_rule_as_stated (FlatIndex [LStr "Subtotals Region_A"])
      (IgnoreList [LStr "Subtotals"]) /\
  ~ mask_rule_as_stated (MultiIndex 2 [[LStr "North"; LStr "Totals"]])
      (IgnoreList [LStr "Totals"]).
Proof.
  split; intros H.
  - specialize (H 0%nat (LStr "Subtotals Region_A") eq_refl).
    apply proj1 in H. specialize (H eq_refl).
    unfold equals_listed in H. simpl in H.
    apply list_elem_of_singleton in H. discriminate.
  - specialize (H 0%nat [LStr "North"; LStr "Totals"] eq_refl).
    apply proj1 in H. specialize (H eq_refl).
    apply Forall_cons in H as [[Heq|(v & k & Hv & Hk & Hp)] _].
    + apply list_elem_of_singleton in Heq. discriminate.
    + apply list_elem_of_singleton in Hk. simplify_eq.
Qed.

(** C3, amended: every position of the mask is [false] exactly when the
    key matches a listed label (equal to it, or a string starting with a
    listed string) on a flat index, and exactly when at least one level of
    the tuple matches on a hierarchical index; with no ignore keys every
    position is [true]. *)
Theorem get_data_mask_rule (index : Index) (ignore_keys : ignore_arg)
    (i : nat) :
  let keys := listed ignore_keys in
  let mask := get_data_mask index ignore_keys in
  match index with
  | FlatIndex ks =>
      match ks !! i with
      | Some k =>
          exists b, mask !! i = Some b /\ (b = false <-> matches_listed keys k)
      | None => mask !! i = None
      end
  | MultiIndex _ ks =>
      match ks !! i with
      | Some t =>
          exists b, mask !! i = Some b /\
                    (b = false <-> Exists (matches_listed keys) t)
      | None => mask !! i = None
      end
  end.
Proof.
  intros keys mask. subst mask. rewrite get_data_mask_listed.
  destruct index as [ks|n ks]; rewrite list_lookup_fmap;
    destruct (ks !! i) as [k|]; simpl; try done.
  - eexists. split; [done|]. apply should_keep_false.
  - eexists. split; [done|]. apply forallb_should_keep_false.
Qed.

(** ** Apportioned rounding *)




Lemma zip_with_but_last {A B C} (f : A -> B -> C) (l : list A) (p : B) (m : list B) :
  (length l <= length m)%nat ->
  zip_with f l (p :: but_last m) = zip_with f l (p :: m).
Proof.
  unfold but_last. revert p m. induction l as [|x l IH]; intros p m Hlen; [done|].
  simpl. f_equal. destruct m as [|y m]; simpl in *; [lia|].
  rewrite Nat.sub_0_r. destruct l as [|x' l].
  { by destruct m. }
  destruct m as [|y' m]; simpl in *; [lia|].
  specialize (IH y (y' :: m)). simpl in IH. rewrite Nat.sub_0_r in IH.
  apply IH. lia.
Qed.

(** The lemmas below share the number of digits [nd]. *)
Section ApportionedRounding.

Context (nd : Z).

Lemma ra_core (S : list num) (a p : Q) :
  Forall finite_or_null S ->
  let C := map (num_round nd) (cumsum_from (Fin a) (map fillna0 S)) in
  mask_isna (zip_with num_sub C (Fin p :: map fillna0 C)) S
  = ra_direct nd a p S.
Proof.
  revert a p. induction S as [|x S IH]; intros a p HS; [done|].
  apply Forall_cons in HS as [Hx HS].
  specialize (IH (a + value_or_0 x)%Q (Qround_nd (a + value_or_0 x) nd) HS).
  destruct x as [|q|s]; [| |done]; simpl in *; f_equal; exact IH.
Qed.

Lemma zip_with_shift1 {C} (f : num -> num -> C) (g : num -> num) (l : list num) :
  zip_with f l (map g (shift1 l)) = zip_with f l (g NaN :: map g l).
Proof.
  destruct l as [|c l]; [done|].
  unfold shift1. rewrite fmap_cons.
  unfold but_last. rewrite fmap_take.
  rewrite <- (length_fmap g (c :: l)).
  apply (zip_with_but_last f (c :: l) (g NaN) (g <$> c :: l)).
  by rewrite length_fmap.
Qed.

Lemma round_apportioned_direct (S : list num) :
  0 <= nd -> Forall finite_or_null S ->
  round_apportioned S nd =
  match S with
  | [] => []
  | x :: S' =>
      let v := value_or_0 x in
      (if isna x then NaN else Fin (Qround_nd v nd - 0))
        :: ra_direct nd v (Qround_nd v nd) S'
  end.
Proof.
  intros Hnd HS. unfold round_apportioned.
  destruct (Z.ltb_spec nd 0) as [|_]; [lia|].
  rewrite zip_with_shift1.
  destruct S as [|x S]; [done|].
  apply Forall_cons in HS as [Hx HS].
  pose proof (ra_core S (value_or_0 x) (Qround_nd (value_or_0 x) nd) HS) as Hc.
  destruct x as [|q|s]; [| |done]; simpl in *; f_equal; exact Hc.
Qed.




End ApportionedRounding.



(** ** Shapes of tables *)

Lemma select_length_eq {A B} (mask : list bool) (l1 : list A) (l2 : list B) :
  length l1 = length l2 ->
  length (select mask l1) = length (select mask l2).
Proof.
  revert l1 l2. induction mask as [|b mask IH]; intros [|x l1] [|y l2] Hl;
    simpl in *; try done.
  destruct b; simpl; auto.
Qed.

Lemma select_Forall {A} (P : A -> Prop) (mask : list bool) (l : list A) :
  Forall P l -> Forall P (select mask l).
Proof.
  revert l. induction mask as [|b mask IH]; intros [|x l] Hl; simpl;
    try constructor.
  apply Forall_cons in Hl as [Hx Hl]. destruct b; auto.
Qed.

Lemma index_select_len (mask : list bool) (ix : Index) {A} (l : list A) :
  length l = index_len ix ->
  length (select mask l) = index_len (index_select mask ix).
Proof. destruct ix; simpl; apply select_length_eq. Qed.





Lemma wf_loc_rows (df : DataFrame) (mask : list bool) :
  wf_df df -> wf_df (loc_rows df mask).
Proof.
  intros [Hr Hc]. split; simpl.
  - unfold nrows. simpl. by apply index_select_len.
  - by apply select_Forall.
Qed.

Lemma wf_loc_cols (df : DataFrame) (mask : list bool) :
  wf_df df -> wf_df (loc_cols df mask).
Proof.
  intros [Hr Hc]. split; simpl.
  - by rewrite length_map.
  - apply Forall_fmap. eapply Forall_impl; [exact Hc|].
    intros row Hrow. unfold ncols. simpl. by apply index_select_len.
Qed.



(** ** The rounding heuristic *)



Lemma resolve_axis_range (ax : Axis) (a : Z) :
  resolve_axis ax = Ok a -> a = 0 \/ a = 1 \/ a = 2.
Proof.
  destruct ax as [n|s]; simpl.
  - destruct n as [|[p|[p|p|]|]|p]; simpl; intros; simplify_eq; auto.
  - repeat case_match; intros; simplify_eq; auto.
Qed.

Lemma last_Forall {A} (P : A -> Prop) (l : list A) (x : A) :
  Forall P l -> last l = Some x -> P x.
Proof.
  intros HF Hl. rewrite last_lookup in Hl.
  eapply Forall_lookup_1; eauto.
Qed.















(** ** Splitting values and totals by position *)





(** ** Plain rounding of three thirds *)

(** C9: three equal values 100/3 and their total, [base = 100],
    [ndigits = 0], [apportioned_rounding = False]: every data entry is
    rounded to 33 on its own and the three rounded percentages sum to 99.
    The first part is the table of the tests (axis 0), the second the
    same values along a row (axis 1), both on the table implementation;
    the third is the call of the test through [as_percentages] under the
    defaults of the specification. *)
Theorem plain_rounding_of_thirds_sums_to_99 :
  (exists out,
     percentages.as_percentages_frame_body thirds_in_a_column (AxInt 0) None
       IgnoreNone 0 100 (Some false) = Ok out /\
     Forall2 num_eq (column 0 (df_values out))
       [Fin 33; Fin 33; Fin 33; Fin 100] /\
     num_eq (num_sum (column 0 (but_last (df_values out)))) (Fin 99)) /\
  (exists out row,
     percentages.as_percentages_frame_body thirds_in_a_row (AxInt 1) None
       IgnoreNone 0 100 (Some false) = Ok out /\
     df_values out = [row] /\
     Forall2 num_eq row [Fin 33; Fin 33; Fin 33; Fin 100] /\
     num_eq (num_sum (but_last row)) (Fin 99)) /\
  (exists out,
     percentages.as_percentages DEFAULTS_spec
       (percentages.ObjFrame thirds_in_a_column) kwargs_plain_rounding
     = Ok (percentages.ObjFrame out) /\
     num_eq (num_sum (column 0 (but_last (df_values out)))) (Fin 99)).
Proof.
  split; [|split].
  - eexists. split; [by vm_compute|]. split.
    + vm_compute. repeat constructor.
    + by vm_compute.
  - eexists _, _. split; [by vm_compute|]. split; [done|]. split.
    + repeat constructor.
    + by vm_compute.
  - eexists. split; [by vm_compute|]. by vm_compute.
Qed.

(** ** Negative [ndigits] *)

(** The table implementation returns the unrounded quotients times
    [base] for every negative [ndigits]. *)
Lemma as_percentages_frame_negative_ndigits (df : DataFrame) (ax : Axis)
    (label_totals : option string) (ignore_keys : ignore_arg) (ndigits : Z)
    (base : Q) (apportioned_rounding : option bool) :
  ndigits < 0 ->
  percentages.as_percentages_frame_body df ax label_totals ignore_keys ndigits
    base apportioned_rounding =
  (let* axis := resolve_axis ax in
   let* keys_to_ignore :=
     percentages._resolve_ignored_keys (df_attrs df) axis ignore_keys in
   let data :=
     loc_cols df (get_data_mask (df_columns df) (IgnoreList keys_to_ignore)) in
   let* vt := from_data data (AxInt axis) label_totals in
   let* quotients :=
     df_div data (vt_totals vt)
       (if axis =? 1 then Some 0 else if axis =? 0 then Some 1 else None) in
   Ok (df_mul quotients base)).
Proof.
  intros Hnd. unfold percentages.as_percentages_frame_body.
  destruct (Z.ltb_spec ndigits 0) as [_|]; [done|lia].
Qed.

(** C8, the series implementation at [ndigits = -2]: with
    [apportioned_rounding = False] the percentages 30, 70 and 100 are
    rounded to hundreds (0, 100, 100), whatever the configured defaults,
    while [ndigits = -1] returns them unrounded. *)
Theorem as_percentages_series_rounds_at_minus_2 (DEFAULTS : Defaults) :
  (exists out,
     percentages.as_percentages_series DEFAULTS series_30_70
       kwargs_ndigits_minus_1 = Ok out /\
     Forall2 num_eq (s_values out) [Fin 30; Fin 70; Fin 100]) /\
  (exists out,
     percentages.as_percentages_series DEFAULTS series_30_70
       kwargs_ndigits_minus_2 = Ok out /\
     Forall2 num_eq (s_values out) [Fin 0; Fin 100; Fin 100]).
Proof.
  split.
  - eexists. split; [by vm_compute|]. vm_compute. repeat constructor.
  - eexists. split; [by vm_compute|]. vm_compute. repeat constructor.
Qed.

(** ** Tracked percentage labels *)

(** C5, the table implementation on a table tagged by
    [tag_labels('percentages')]: the label "pct" is recorded under
    "percentages", the ignored keys resolved from the metadata are empty,
    and the column "pct" takes part in the computation (as the last
    column it even serves as the totals); passing the label explicitly
    excludes the column. *)
Theorem as_percentages_keeps_tracked_pct_column :
  tag_labels "percentages" (percentages_key_labels DEFAULTS_spec)
    (pct_label_kwarg kwargs_label_pct) (Ok (table_with_pct ∅))
  = Ok (table_with_pct attrs_tracked_pct) /\
  (let* tracked := tracked_labels attrs_tracked_pct in
   tracked_get tracked "percentages") = Ok [LStr "pct"] /\
  percentages._resolve_ignored_keys attrs_tracked_pct 1 IgnoreNone = Ok [] /\
  (exists out,
    percentages.as_percentages_frame_body (table_with_pct attrs_tracked_pct)
      (AxInt 1) None IgnoreNone (-1) 100 None = Ok out /\
    df_columns out = FlatIndex [LStr "A"; LStr "Totals"; LStr "pct"] /\
    Forall2 (Forall2 num_eq) (df_values out)
      [[Fin 40; Fin 160; Fin 100]; [Fin 40; Fin (160 # 3); Fin 100]]) /\
  exists out',
    percentages.as_percentages_frame_body (table_with_pct attrs_tracked_pct)
      (AxInt 1) None (IgnoreStr "pct") (-1) 100 None = Ok out' /\
    df_columns out' = FlatIndex [LStr "A"; LStr "Totals"] /\
    Forall2 (Forall2 num_eq) (df_values out')
      [[Fin 25; Fin 100]; [Fin 75; Fin 100]].
Proof.
  split; [by vm_compute|]. split; [by vm_compute|]. split; [by vm_compute|].
  split.
  - eexists. split; [by vm_compute|]. split; [done|].
    vm_compute. repeat constructor.
  - eexists. split; [by vm_compute|]. split; [done|].
    vm_compute. repeat constructor.
Qed.

(** ** Label tracking and [drop_totals] *)

Lemma set_nested_key_label_path (attrs attrs' : gmap string pyobj)
    (transform : string) (value : pyobj) :
  set_nested_key attrs (label_path transform) value = Ok attrs' ->
  exists d' dl,
    attrs' !! "flatbread"%string = Some (PyDict d') /\
    d' !! "labels"%string = Some (PyDict dl) /\
    dl !! transform = Some value /\
    forall k, k <> "labels"%string -> d' !! k = flatbread_slot attrs k.
Proof.
  unfold label_path, flatbread_slot. cbn [set_nested_key].
  destruct (attrs !! "flatbread"%string) as [[s|d]|] eqn:Hfb.
  - rewrite Hfb. done.
  - rewrite Hfb.
    destruct (d !! "labels"%string) as [[s|dl]|] eqn:Hl.
    + rewrite Hl. done.
    + rewrite Hl. cbn [rbind]. intros [= <-].
      eexists _, _. split; [apply lookup_insert_eq|].
      split; [apply lookup_insert_eq|]. split; [apply lookup_insert_eq|].
      intros k Hk. by rewrite lookup_insert_ne.
    + rewrite lookup_insert_eq. cbn [rbind]. intros [= <-].
      eexists _, _. split; [apply lookup_insert_eq|].
      split; [apply lookup_insert_eq|]. split; [apply lookup_insert_eq|].
      intros k Hk. rewrite lookup_insert_ne by done.
      by rewrite lookup_insert_ne.
  - rewrite lookup_insert_eq.
    rewrite lookup_empty, lookup_insert_eq. cbn [rbind]. intros [= <-].
    eexists _, _. split; [apply lookup_insert_eq|].
    split; [apply lookup_insert_eq|]. split; [apply lookup_insert_eq|].
    intros k Hk. rewrite lookup_insert_ne by done.
    by rewrite lookup_insert_ne, lookup_empty.
Qed.

Lemma tag_labels_Ok (transform : string) (key_label_params : list string)
    (kwargs : string -> option string) (func_result : result DataFrame)
    (out : DataFrame) :
  tag_labels transform key_label_params kwargs func_result = Ok out ->
  exists r,
    func_result = Ok r /\
    df_index out = df_index r /\
    df_columns out = df_columns r /\
    df_values out = df_values r /\
    exists d' dl tracked,
      df_attrs out !! "flatbread"%string = Some (PyDict d') /\
      d' !! "labels"%string = Some (PyDict dl) /\
      dl !! transform = Some (PySet tracked) /\
      (forall l, l ∈ labels_to_track key_label_params kwargs -> l ∈ tracked) /\
      forall k, k <> "labels"%string ->
        d' !! k = flatbread_slot (df_attrs r) k.
Proof.
  unfold tag_labels. destruct func_result as [r|]; [|done]. cbn [rbind].
  destruct (get_nested_key _ _) as [existing|]; [|done]. cbn [rbind].
  destruct (set_nested_key _ _ _) as [attrs|] eqn:Hset; [|done]. cbn [rbind].
  intros [= <-]. exists r. repeat (split; [done|]). simpl.
  apply set_nested_key_label_path in Hset as (d' & dl & H1 & H2 & H3 & H4).
  exists d', dl,
    (existing ∪ list_to_set (labels_to_track key_label_params kwargs)).
  repeat (split; [done|]). split; [|done].
  intros l Hl. apply elem_of_union_r. by apply elem_of_list_to_set.
Qed.

Lemma index_append_Ok (ix ix' : Index) (name fill : string) :
  index_append ix name fill = Ok ix' ->
  match ix with
  | FlatIndex ks => ix' = FlatIndex (ks ++ [agg_key_flat name])
  | MultiIndex n ks => ix' = MultiIndex n (ks ++ [agg_key_multi n name fill])
  end.
Proof.
  destruct ix; simpl; case_bool_decide; intros; simplify_eq; done.
Qed.

Lemma add_agg_sum_attrs (data out : DataFrame) (axis : Z) (name : string)
    (ignore_keys : list label) (fill : string) :
  add_agg_sum data axis name ignore_keys fill = Ok out ->
  df_attrs out = df_attrs data.
Proof.
  unfold add_agg_sum. destruct (axis =? 0);
    destruct (index_append _ _ _); simpl; intros; simplify_eq; done.
Qed.

Lemma add_totals_call_keeps_slot (DEFAULTS : Defaults)
    (self : DataFrame -> totals_kwargs -> result DataFrame) :
  keeps_totals_slot self ->
  keeps_totals_slot (totals.add_totals_call DEFAULTS self).
Proof.
  intros Hself data kwargs out. unfold totals.add_totals_call.
  intros Htag. apply tag_labels_Ok in Htag
    as (r & Hbody & _ & _ & _ & d' & dl & tr & Hfb & Hdl & Htr & _ & Hd').
  split; [eauto 10|].
  unfold flatbread_slot at 1. rewrite Hfb, (Hd' "totals"%string) by done.
  cbv zeta in Hbody.
  destruct (resolve_axis _) as [axis|]; [|done]. cbn [rbind] in Hbody.
  destruct (totals._resolve_ignored_keys _ _ _) as [keys|]; [|done].
  cbn [rbind] in Hbody.
  destruct (axis <? 2).
  - by rewrite (add_agg_sum_attrs _ _ _ _ _ _ Hbody).
  - destruct (self data _) as [output0|] eqn:H0; [|done].
    cbn [rbind] in Hbody.
    apply Hself in H0 as [_ H0]. apply Hself in Hbody as [_ Hbody].
    congruence.
Qed.

(** C6, what the code does: a table returned by [add_totals] carries the
    tracked labels under [attrs['flatbread']['labels']['totals']], and
    [drop_totals] without [ignore_keys] on it raises [KeyError], as long
    as the input table had no entry [attrs['flatbread']['totals']]. *)
Theorem drop_totals_after_add_totals (DEFAULTS : Defaults) (data : DataFrame)
    (kwargs : totals_kwargs) (out : DataFrame) :
  flatbread_slot (df_attrs data) "totals" = None ->
  totals.add_totals DEFAULTS data kwargs = Ok out ->
  (exists tracked,
     (let* labels := tracked_labels (df_attrs out) in
      py_getitem labels "totals") = Ok (PySet tracked)) /\
  totals.drop_totals out IgnoreNone = Err KeyError.
Proof.
  intros Hslot Hadd. split.
  - apply tag_labels_Ok in Hadd
      as (r & _ & _ & _ & _ & d' & dl & tr & Hfb & Hdl & Htr & _ & _).
    exists tr. unfold tracked_labels. rewrite Hfb. simpl. rewrite Hdl. simpl.
    by rewrite Htr.
  - assert (Hk : keeps_totals_slot (totals.add_totals DEFAULTS)).
    { apply add_totals_call_keeps_slot, add_totals_call_keeps_slot.
      intros ? ? ? ?. done. }
    apply Hk in Hadd as [[d Hd] Hs]. rewrite Hslot in Hs.
    unfold flatbread_slot in Hs. rewrite Hd in Hs.
    unfold totals.drop_totals. simpl. rewrite Hd. simpl. by rewrite Hs.
Qed.

Lemma add_totals_test_table :
  totals.add_totals DEFAULTS_spec test_table no_kwargs
  = Ok (table_with_totals attrs_tracked_totals).
Proof. by vm_compute. Qed.

Lemma drop_totals_after_add_totals_witness :
  (exists tracked,
     (let* labels := tracked_labels attrs_tracked_totals in
      py_getitem labels "totals") = Ok (PySet tracked)) /\
  totals.drop_totals (table_with_totals attrs_tracked_totals) IgnoreNone
  = Err KeyError.
Proof.
  apply (drop_totals_after_add_totals DEFAULTS_spec test_table no_kwargs
           (table_with_totals attrs_tracked_totals)).
  - reflexivity.
  - by vm_compute.
Defined.

Lemma select_app {A} (m m' : list bool) (l l' : list A) :
  length m = length l ->
  select (m ++ m') (l ++ l') = select m l ++ select m' l'.
Proof.
  revert l. induction m as [|b m IH]; intros [|x l] Hlen; simpl in *;
    try done.
  injection Hlen as Hlen. destruct b; simpl; by rewrite IH.
Qed.

Lemma select_all_true {A} (m : list bool) (l : list A) :
  Forall (fun b => b = true) m -> length m = length l -> select m l = l.
Proof.
  revert l. induction m as [|b m IH]; intros [|x l] Hm Hlen; simpl in *;
    try done.
  apply Forall_cons in Hm as [-> Hm]. injection Hlen as Hlen.
  by rewrite IH.
Qed.

Lemma index_select_all_true (m : list bool) (ix : Index) :
  Forall (fun b => b = true) m -> length m = index_len ix ->
  index_select m ix = ix.
Proof.
  intros Hm Hlen. destruct ix; simpl in *; f_equal; by apply select_all_true.
Qed.

Lemma should_keep_own_label (name : string) :
  should_keep [LStr name] (LStr name) = false.
Proof. apply should_keep_false. left. by apply list_elem_of_singleton. Qed.

Lemma get_data_mask_appended (ix ix' : Index) (name fill : string) :
  index_append ix name fill = Ok ix' ->
  get_data_mask ix' (IgnoreStr name) =
  get_data_mask ix (IgnoreStr name) ++ [false].
Proof.
  intros H. apply index_append_Ok in H.
  destruct ix as [ks|n ks]; subst ix'; rewrite !get_data_mask_listed;
    rewrite map_app; simpl; f_equal.
  - by rewrite should_keep_own_label.
  - by rewrite should_keep_own_label.
Qed.

Lemma index_append_select (ix ix' : Index) (name fill : string)
    (m : list bool) :
  index_append ix name fill = Ok ix' ->
  length m = index_len ix ->
  index_select (m ++ [false]) ix' = index_select m ix.
Proof.
  intros H Hlen. apply index_append_Ok in H.
  destruct ix as [ks|n ks]; subst ix'; simpl in *;
    rewrite select_app by done; simpl; by rewrite app_nil_r.
Qed.

Lemma no_row_matches_mask (data : DataFrame) (name : string) :
  no_row_matches data name ->
  Forall (fun b => b = true) (get_data_mask (df_index data) (IgnoreStr name)).
Proof.
  unfold no_row_matches. rewrite get_data_mask_listed. simpl.
  destruct (df_index data) as [ks|n ks]; intros H; apply Forall_fmap;
    eapply Forall_impl; try exact H; simpl.
  - intros k Hk. by apply should_keep_true.
  - intros t Ht. induction Ht as [|v t Hv Ht IH]; simpl; [done|].
    rewrite IH, andb_true_r. by apply should_keep_true.
Qed.

(** C7, amended: for axis 0, [drop_totals] with [ignore_keys = L]
    applied to the result of [add_totals(T, axis=0, label=L)] returns the
    columns of [T] and exactly the rows of [T] that the mask for [L]
    keeps; when no row label of [T] matches [L] these are the rows of [T],
    index and values. *)
Theorem drop_totals_add_totals_rows (DEFAULTS : Defaults) (data : DataFrame)
    (ax : Axis) (name : string) (ignore_keys : ignore_arg)
    (fill : option string) (out : DataFrame) :
  wf_df data ->
  resolve_axis ax = Ok 0 ->
  totals.add_totals DEFAULTS data
    (mkTotalsKw (Some ax) (Some name) ignore_keys fill) = Ok out ->
  exists out',
    totals.drop_totals out (IgnoreStr name) = Ok out' /\
    let mask := get_data_mask (df_index data) (IgnoreStr name) in
    df_index out' = index_select mask (df_index data) /\
    df_columns out' = df_columns data /\
    df_values out' = select mask (df_values data) /\
    (no_row_matches data name ->
     df_index out' = df_index data /\ df_values out' = df_values data).
Proof.
  intros [Hr Hc] Hax Hadd. unfold totals.add_totals in Hadd.
  apply tag_labels_Ok in Hadd as (r & Hbody & Hi & Hcol & Hv & _).
  cbv zeta in Hbody. simpl in Hbody. rewrite Hax in Hbody.
  cbn [rbind] in Hbody.
  destruct (totals._resolve_ignored_keys _ _ _) as [keys|]; [|done].
  cbn [rbind] in Hbody.
  change (0 <? 2) with true in Hbody. cbv iota in Hbody.
  unfold add_agg_sum in Hbody. change (0 =? 0) with true in Hbody.
  cbv iota in Hbody.
  destruct (index_append _ _ _) as [ix'|] eqn:Hix; [|done].
  cbn [rbind] in Hbody. injection Hbody as <-.
  cbn [df_index df_columns df_values] in Hi, Hcol, Hv.
  eexists. split; [unfold totals.drop_totals; cbn [rbind]; reflexivity|].
  cbv zeta. unfold loc_rows. cbn [df_index df_columns df_values].
  rewrite Hi, Hcol, Hv.
  rewrite (get_data_mask_appended _ _ _ _ Hix).
  assert (Hlen : length (get_data_mask (df_index data) (IgnoreStr name))
                 = length (df_values data)).
  { by rewrite get_data_mask_length. }
  assert (Hsel : forall row,
             select (get_data_mask (df_index data) (IgnoreStr name) ++ [false])
               (df_values data ++ [row])
             = select (get_data_mask (df_index data) (IgnoreStr name))
                 (df_values data)).
  { intros row. rewrite select_app by done. simpl. by rewrite app_nil_r. }
  assert (Hisel : index_select
                    (get_data_mask (df_index data) (IgnoreStr name) ++ [false])
                    ix'
                  = index_select
                      (get_data_mask (df_index data) (IgnoreStr name))
                      (df_index data)).
  { eapply index_append_select; [done|]. by rewrite get_data_mask_length. }
  rewrite Hisel, Hsel.
  split; [done|]. split; [done|]. split; [done|].
  intros Hno. apply no_row_matches_mask in Hno. split.
  - apply index_select_all_true; [done|]. apply get_data_mask_length.
  - by apply select_all_true.
Qed.

(** C7, counterexample: with the default axis the totals column stays in
    every row after [drop_totals]; with axis 0 a row of the table whose
    label starts with the totals label is dropped as well. *)
Lemma roundtrip_as_stated_fails :
  ~ roundtrip_as_stated DEFAULTS_spec test_table "Totals" /\
  ~ roundtrip_as_stated DEFAULTS_spec table_totals_2023 "Totals".
Proof.
  split; intros H.
  - destruct (H (mkTotalsKw None (Some "Totals"%string) IgnoreNone None)
                (table_with_totals attrs_tracked_totals)
                (mkDataFrame
                   (FlatIndex [LInt 0; LInt 1; LInt 2])
                   (FlatIndex [LStr "A"; LStr "B"; LStr "Totals"])
                   [[Fin 10; Fin 15; Fin 25]; [Fin 20; Fin 25; Fin 45];
                    [Fin 30; Fin 20; Fin 50]]
                   attrs_tracked_totals))
      as [_ Hv]; [done|by vm_compute|by vm_compute|].
    discriminate Hv.
  - destruct (H (mkTotalsKw (Some (AxInt 0)) (Some "Totals"%string)
                   IgnoreNone None)
                (mkDataFrame
                   (FlatIndex
                      [LStr "Sales 2023"; LStr "Totals 2023"; LStr "Totals"])
                   (FlatIndex [LStr "A"; LStr "B"])
                   [[Fin 1; Fin 2]; [Fin 3; Fin 4]; [Fin 4; Fin 6]]
                   attrs_tracked_totals)
                (mkDataFrame
                   (FlatIndex [LStr "Sales 2023"])
                   (FlatIndex [LStr "A"; LStr "B"])
                   [[Fin 1; Fin 2]]
                   attrs_tracked_totals))
      as [_ Hv]; [done|by vm_compute|by vm_compute|].
    discriminate Hv.
Qed.

Lemma drop_totals_add_totals_rows_witness :
  exists out',
    totals.drop_totals
      (mkDataFrame
         (FlatIndex [LInt 0; LInt 1; LInt 2; LStr "Totals"])
         (FlatIndex [LStr "A"; LStr "B"])
         [[Fin 10; Fin 15]; [Fin 20; Fin 25]; [Fin 30; Fin 20];
          [Fin 60; Fin 60]]
         attrs_tracked_totals)
      (IgnoreStr "Totals") = Ok out' /\
    let mask := get_data_mask (df_index test_table) (IgnoreStr "Totals") in
    df_index out' = index_select mask (df_index test_table) /\
    df_columns out' = df_columns test_table /\
    df_values out' = select mask (df_values test_table) /\
    (no_row_matches test_table "Totals" ->
     df_index out' = df_index test_table /\
     df_values out' = df_values test_table).
Proof.
  apply (drop_totals_add_totals_rows DEFAULTS_spec test_table (AxInt 0)
           "Totals" IgnoreNone None).
  - split; [reflexivity|]. repeat constructor.
  - reflexivity.
  - by vm_compute.
Defined.

(** ** The totals row under [as_percentages] *)

Lemma zip_with_diag {A B} (f : A -> A -> B) (l : list A) :
  zip_with f l l = map (fun x => f x x) l.
Proof. induction l as [|x l IH]; simpl; [done|]. by rewrite IH. Qed.

Lemma self_ratio_times_base (t : num) (base : Q) :
  nonzero_finite t ->
  num_eq (num_mul (num_div t t) (Fin base)) (Fin base).
Proof.
  intros (q & -> & Hq). simpl. unfold Qzero.
  destruct (Qeq_bool q 0) eqn:E.
  - apply Qeq_bool_iff in E. done.
  - simpl. field. done.
Qed.

(** When the tracked labels can be read from the metadata, the wrapper
    of [tag_labels] succeeds and leaves index, columns and values as the
    wrapped call returned them. *)
Lemma tracked_labels_dict (attrs : gmap string pyobj) (tracked : pyobj)
    (category : string) (ls : list label) :
  tracked_labels attrs = Ok tracked ->
  tracked_get tracked category = Ok ls ->
  exists dl, tracked = PyDict dl /\
    (attrs !! "flatbread"%string = None \/
     exists d, attrs !! "flatbread"%string = Some (PyDict d) /\
       (d !! "labels"%string = None \/
        d !! "labels"%string = Some (PyDict dl))).
Proof.
  unfold tracked_labels, tracked_get. intros Ht Hg.
  destruct tracked as [s|dl]; [done|]. exists dl. split; [done|].
  destruct (attrs !! "flatbread"%string) as [[s|d]|]; [done| |by left].
  right. exists d. split; [done|]. simpl in Ht.
  destruct (d !! "labels"%string) as [v|]; [|by left].
  right. simpl in Ht. by injection Ht as ->.
Qed.

Lemma tag_labels_succeeds (transform : string) (key_label_params : list string)
    (kwargs : string -> option string) (r : DataFrame) (tracked : pyobj)
    (category : string) (ls : list label) :
  tracked_labels (df_attrs r) = Ok tracked ->
  tracked_get tracked category = Ok ls ->
  exists out,
    tag_labels transform key_label_params kwargs (Ok r) = Ok out /\
    df_index out = df_index r /\
    df_columns out = df_columns r /\
    df_values out = df_values r.
Proof.
  intros Ht Hg.
  destruct (tracked_labels_dict _ _ _ _ Ht Hg)
    as (dl & -> & [Hfb | (d & Hfb & [Hl | Hl])]);
    unfold tag_labels, label_path; cbn [rbind get_nested_key set_nested_key];
    try destruct (dl !! transform) as [v|] eqn:Hv;
    repeat (rewrite ?Hfb, ?Hl, ?Hv, ?lookup_insert_eq, ?lookup_empty;
            cbn [rbind get_nested_key]);
    (eexists; split; [reflexivity|]; by repeat split).
Qed.

Lemma as_percentages_frame_body_axis0 (df : DataFrame) (ax : Axis)
    (ignore_keys : ignore_arg) (base : Q) (apportioned_rounding : option bool)
    (keys : list label) (r : list num) :
  wf_df df ->
  resolve_axis ax = Ok 0 ->
  percentages._resolve_ignored_keys (df_attrs df) 0 ignore_keys = Ok keys ->
  last (df_values df) = Some r ->
  Forall nonzero_finite r ->
  let data := loc_cols df (get_data_mask (df_columns df) (IgnoreList keys)) in
  exists out out_last,
    percentages.as_percentages_frame_body df ax None ignore_keys (-1)
      base apportioned_rounding = Ok out /\
    df_attrs out = df_attrs df /\
    df_index out = df_index data /\
    df_columns out = df_columns data /\
    length (df_values out) = length (df_values data) /\
    last (df_values out) = Some out_last /\
    length out_last = ncols data /\
    Forall (fun c => num_eq c (Fin base)) out_last.
Proof.
  intros Hwf Hax Hkeys Hlast Hnz data.
  set (mask := get_data_mask (df_columns df) (IgnoreList keys)) in *.
  assert (Hdlast : last (df_values data) = Some (select mask r)).
  { subst data. simpl. by rewrite fmap_last, Hlast. }
  pose proof (wf_loc_cols df mask Hwf) as [_ Hc]. fold data in Hc.
  assert (Hlen : length (select mask r) = ncols data).
  { apply (last_Forall (fun r => length r = ncols data) _ _ Hc Hdlast). }
  unfold percentages.as_percentages_frame_body.
  rewrite Hax. cbn [rbind]. rewrite Hkeys. cbn [rbind].
  fold mask. fold data.
  unfold from_data. change (resolve_axis (AxInt 0)) with (Ok (A:=Z) 0).
  cbn [rbind Z.eqb]. unfold iloc_last_row. rewrite Hdlast.
  cbn [rbind fst snd vt_totals Z.eqb Z.ltb Z.compare df_div].
  eexists _, _. split; [done|]. unfold df_mul, df_map.
  cbn [df_index df_columns df_values df_attrs].
  split; [done|]. split; [done|]. split; [done|].
  split; [by rewrite !length_map|].
  split; [by rewrite !fmap_last, Hdlast|].
  split.
  - by rewrite length_map, length_zip_with, Nat.min_id.
  - rewrite zip_with_diag, Forall_fmap, Forall_fmap.
    apply select_Forall. eapply Forall_impl; [exact Hnz|].
    intros t Ht. simpl. by apply self_ratio_times_base.
Qed.

(** C10: [as_percentages] on a table, called with an axis that resolves
    to 0, [label_totals = None] and [ndigits = -1] (the values bound
    after default injection), on a well-shaped table whose last row
    holds finite nonzero totals: the call returns a table with the row
    index and the number of rows of the masked input, so the totals row
    is still there, and every entry of the last row of the output equals
    [base]. *)
Theorem as_percentages_axis0_totals_row (DEFAULTS : Defaults) (df : DataFrame)
    (kwargs : pct_kwargs) (ax : Axis) (keys : list label) (r : list num) :
  wf_df df ->
  kw_axis (inject_defaults_pct (percentages_defaults DEFAULTS) kwargs)
    = Some ax ->
  resolve_axis ax = Ok 0 ->
  kw_label_totals (inject_defaults_pct (percentages_defaults DEFAULTS) kwargs)
    = None ->
  kw_ndigits (inject_defaults_pct (percentages_defaults DEFAULTS) kwargs)
    = Some (-1) ->
  percentages._resolve_ignored_keys (df_attrs df) 0
    (kw_ignore_keys (inject_defaults_pct (percentages_defaults DEFAULTS) kwargs))
    = Ok keys ->
  last (df_values df) = Some r ->
  Forall nonzero_finite r ->
  let data := loc_cols df (get_data_mask (df_columns df) (IgnoreList keys)) in
  let base :=
    default 1%Q
      (kw_base (inject_defaults_pct (percentages_defaults DEFAULTS) kwargs)) in
  exists out out_last,
    percentages.as_percentages_frame DEFAULTS df kwargs = Ok out /\
    df_index out = df_index data /\
    df_columns out = df_columns data /\
    length (df_values out) = length (df_values data) /\
    last (df_values out) = Some out_last /\
    length out_last = ncols data /\
    Forall (fun c => num_eq c (Fin base)) out_last.
Proof.
  intros Hwf Hax Hres Hlt Hnd Hkeys Hlast Hnz data base.
  unfold percentages.as_percentages_frame. cbv zeta.
  rewrite Hax, Hlt, Hnd. cbn [from_option id].
  destruct (as_percentages_frame_body_axis0 df ax _ base
              (kw_apportioned_rounding
                 (inject_defaults_pct (percentages_defaults DEFAULTS) kwargs))
              keys r Hwf Hres Hkeys Hlast Hnz)
    as (out & out_last & Hbody & Hattrs & Hi & Hc & Hlen & Hl & Hll & Hall).
  fold base. rewrite Hbody.
  unfold percentages._resolve_ignored_keys in Hkeys.
  destruct (tracked_labels (df_attrs df)) as [tracked|] eqn:Ht; [|done].
  cbn [rbind] in Hkeys.
  destruct (tracked_get tracked "percentage") as [ls|] eqn:Hg; [|done].
  rewrite <- Hattrs in Ht.
  destruct (tag_labels_succeeds "percentages"
              (percentages_key_labels DEFAULTS)
              (pct_label_kwarg
                 (inject_defaults_pct (percentages_defaults DEFAULTS) kwargs))
              out tracked _ ls Ht Hg)
    as (out' & Htag & Hi' & Hc' & Hv').
  exists out', out_last. split; [exact Htag|].
  rewrite Hi', Hc', Hv'. done.
Qed.

Lemma as_percentages_axis0_totals_row_witness :
  let df := test_table_totals_row in
  let data := loc_cols df (get_data_mask (df_columns df) (IgnoreList [])) in
  exists out out_last,
    percentages.as_percentages_frame DEFAULTS_spec df
      (mkPctKw (Some (AxInt 0)) None None None IgnoreNone (Some (-1))
         (Some 100%Q) None) = Ok out /\
    df_index out = df_index data /\
    df_columns out = df_columns data /\
    length (df_values out) = length (df_values data) /\
    last (df_values out) = Some out_last /\
    length out_last = ncols data /\
    Forall (fun c => num_eq c (Fin 100)) out_last.
Proof.
  apply (as_percentages_axis0_totals_row DEFAULTS_spec test_table_totals_row
           (mkPctKw (Some (AxInt 0)) None None None IgnoreNone (Some (-1))
              (Some 100%Q) None)
           (AxInt 0) [] [Fin 60; Fin 60]).
  - split; [reflexivity|]. repeat constructor.
  - reflexivity.
  - reflexivity.
  - reflexivity.
  - reflexivity.
  - reflexivity.
  - reflexivity.
  - repeat constructor; (eexists; split; [reflexivity|discriminate]).
Defined.

(** * Further properties *)

(** ** Rounding to a number of digits *)





Lemma ra_direct_take (nd : Z) (S : list num) (a p : Q) (k : nat) :
  take k (ra_direct nd a p S) = ra_direct nd a p (take k S).
Proof.
  revert a p k. induction S as [|x S IH]; intros a p [|k]; simpl; try done.
  by rewrite IH.
Qed.

Lemma round_apportioned_take (S : list num) (nd : Z) (k : nat) :
  0 <= nd -> Forall finite_or_null S ->
  take k (round_apportioned S nd) = round_apportioned (take k S) nd.
Proof.
  intros Hnd HS.
  rewrite (round_apportioned_direct nd S Hnd HS).
  rewrite (round_apportioned_direct nd (take k S) Hnd (Forall_take _ _ _ HS)).
  destruct S as [|x S], k as [|k]; simpl; try done.
  by rewrite ra_direct_take.
Qed.





Lemma prefix_sum_take (S : list num) (k : nat) :
  (k <= length S)%nat ->
  Qsum (map value_or_0 (take k S)) = prefix_sum S k.
Proof. done. Qed.


(** X2: [round_apportioned] works from left to right: rounding the
    first [k] entries of a sequence gives the first [k] entries of the
    rounding of the whole sequence. *)
Theorem round_apportioned_of_prefix (S : list num) (ndigits : Z) (k : nat) :
  0 <= ndigits ->
  Forall finite_or_null S ->
  round_apportioned (take k S) ndigits = take k (round_apportioned S ndigits).
Proof. intros. symmetry. by apply round_apportioned_take. Qed.










(** ** Apportioned rounding of a table *)

Lemma nth_map_lt {A B} (f : A -> B) (l : list A) (j : nat) (d : A) (d' : B) :
  (j < length l)%nat -> nth j (map f l) d' = f (nth j l d).
Proof.
  revert j. induction l as [|x l IH]; intros [|j] H; simpl in *; try lia; auto.
  apply IH. lia.
Qed.

Lemma nth_zip_with_lt {A B C} (f : A -> B -> C) (l : list A) (k : list B)
    (j : nat) (da : A) (db : B) (dc : C) :
  (j < length l)%nat -> (j < length k)%nat ->
  nth j (zip_with f l k) dc = f (nth j l da) (nth j k db).
Proof.
  revert k j. induction l as [|x l IH]; intros [|y k] [|j] H1 H2; simpl in *;
    try lia; auto.
  apply IH; lia.
Qed.

Lemma nth_replicate_same {A} (n j : nat) (d : A) : nth j (replicate n d) d = d.
Proof. revert j. induction n as [|n IH]; intros [|j]; simpl; auto. Qed.

Lemma column_map (f : num -> num) (j : nat) (rows : list (list num)) :
  reaches j rows ->
  column j (map (map f) rows) = map f (column j rows).
Proof.
  unfold column. induction 1 as [|row rows Hrow _ IH]; simpl; [done|].
  f_equal; [|done]. by apply nth_map_lt.
Qed.

Lemma reaches_map (f : num -> num) (j : nat) (rows : list (list num)) :
  reaches j rows -> reaches j (map (map f) rows).
Proof.
  intros H. apply Forall_fmap. eapply Forall_impl; [exact H|].
  intros row Hrow. simpl. by rewrite length_map.
Qed.

Lemma column_zip_with (f : num -> num -> num) (j : nat)
    (A B : list (list num)) :
  reaches j A -> reaches j B ->
  column j (zip_with (zip_with f) A B) = zip_with f (column j A) (column j B).
Proof.
  unfold column. intros HA. revert B.
  induction HA as [|a A Ha _ IH]; intros [|b B] HB; simpl; try done.
  apply Forall_cons in HB as [Hb HB]. f_equal; [|by apply IH].
  by apply nth_zip_with_lt.
Qed.

Lemma reaches_zip_with (f : num -> num -> num) (j : nat)
    (A B : list (list num)) :
  reaches j A -> reaches j B -> reaches j (zip_with (zip_with f) A B).
Proof.
  intros HA. revert B.
  induction HA as [|a A Ha _ IH]; intros [|b B] HB; simpl; try constructor.
  - apply Forall_cons in HB as [Hb HB]. rewrite length_zip_with. lia.
  - apply Forall_cons in HB as [Hb HB]. by apply IH.
Qed.

Lemma column_cumsum_rows_from (j : nat) (acc : list num)
    (rows : list (list num)) :
  (j < length acc)%nat -> reaches j rows ->
  column j (cumsum_rows_from acc rows)
  = cumsum_from (nth j acc NaN) (column j rows) /\
  reaches j (cumsum_rows_from acc rows).
Proof.
  intros Hacc Hrows. revert acc Hacc.
  induction Hrows as [|row rows Hrow _ IH]; intros acc Hacc; simpl.
  - split; [done|constructor].
  - destruct (IH (zip_with num_add acc row)) as [IH1 IH2].
    { rewrite length_zip_with. lia. }
    split.
    + unfold column in *. simpl. rewrite IH1.
      by rewrite (nth_zip_with_lt num_add acc row j NaN NaN NaN).
    + constructor; [|done]. rewrite length_zip_with. lia.
Qed.

Lemma column_cumsum_rows (j : nat) (rows : list (list num)) :
  reaches j rows ->
  column j (cumsum_rows rows) = cumsum (column j rows) /\
  reaches j (cumsum_rows rows).
Proof.
  intros Hrows. destruct Hrows as [|row rows Hrow Hrows]; simpl.
  - split; [done|constructor].
  - destruct (column_cumsum_rows_from j row rows Hrow Hrows) as [H1 H2].
    split.
    + unfold column in *. simpl. by rewrite H1.
    + by constructor.
Qed.

Lemma column_but_last (j : nat) (rows : list (list num)) :
  column j (but_last rows) = but_last (column j rows).
Proof.
  unfold column, but_last. by rewrite fmap_take, length_map.
Qed.

Lemma column_shift1_rows (j n : nat) (rows : list (list num)) :
  column j (shift1_rows n rows) = shift1 (column j rows).
Proof.
  destruct rows as [|row rows]; [done|].
  unfold shift1_rows.
  change (column j (replicate n NaN :: but_last (row :: rows)))
    with (nth j (replicate n NaN) NaN :: column j (but_last (row :: rows))).
  rewrite nth_replicate_same, column_but_last. done.
Qed.

Lemma reaches_shift1_rows (j n : nat) (rows : list (list num)) :
  (j < n)%nat -> reaches j rows -> reaches j (shift1_rows n rows).
Proof.
  intros Hn Hrows. destruct rows as [|row rows]; [constructor|].
  unfold shift1_rows. constructor.
  - by rewrite length_replicate.
  - by apply Forall_take.
Qed.

Lemma round_apportioned_df_column (s : DataFrame) (nd : Z) (j : nat) :
  wf_df s -> (j < ncols s)%nat ->
  column j (df_values (round_apportioned_df s nd))
  = round_apportioned (column j (df_values s)) nd.
Proof.
  intros [_ Hc] Hj. unfold round_apportioned_df, round_apportioned.
  destruct (nd <? 0); [done|]. cbn [df_values].
  assert (Hr : reaches j (df_values s)).
  { eapply Forall_impl; [exact Hc|]. intros row Hrow. simpl in *.
    by rewrite Hrow. }
  pose proof (reaches_map fillna0 j _ Hr) as Hr1.
  destruct (column_cumsum_rows j _ Hr1) as [Hcs Hr2].
  pose proof (reaches_map (num_round nd) j _ Hr2) as Hr3.
  pose proof (reaches_shift1_rows j (ncols s) _ Hj Hr3) as Hr4.
  pose proof (reaches_map fillna0 j _ Hr4) as Hr5.
  pose proof (reaches_zip_with num_sub j _ _ Hr3 Hr5) as Hr6.
  unfold mask_isna at 1.
  rewrite (column_zip_with _ j _ _ Hr6 Hr).
  rewrite (column_zip_with num_sub j _ _ Hr3 Hr5).
  rewrite (column_map fillna0 j _ Hr4), column_shift1_rows.
  rewrite (column_map (num_round nd) j _ Hr2), Hcs.
  rewrite (column_map fillna0 j _ Hr). done.
Qed.

(** X6: on a table [round_apportioned] keeps index and columns and acts
    on every column as it acts on a sequence, whatever axis the
    percentages were taken along. *)
Theorem round_apportioned_df_by_column (s : DataFrame) (ndigits : Z)
    (j : nat) :
  wf_df s ->
  (j < ncols s)%nat ->
  df_index (round_apportioned_df s ndigits) = df_index s /\
  df_columns (round_apportioned_df s ndigits) = df_columns s /\
  column j (df_values (round_apportioned_df s ndigits))
  = round_apportioned (column j (df_values s)) ndigits.
Proof.
  intros Hwf Hj. split; [|split].
  - unfold round_apportioned_df. by destruct (ndigits <? 0).
  - unfold round_apportioned_df. by destruct (ndigits <? 0).
  - by apply round_apportioned_df_column.
Qed.

(** ** Witnesses for the rounding properties *)


Lemma round_apportioned_of_prefix_witness :
  round_apportioned (take 2 thirds_with_null) 0
  = take 2 (round_apportioned thirds_with_null 0).
Proof.
  apply (round_apportioned_of_prefix thirds_with_null 0 2).
  - lia.
  - repeat constructor.
Defined.




Lemma round_apportioned_df_by_column_witness :
  df_index (round_apportioned_df thirds_in_a_column 0)
  = df_index thirds_in_a_column /\
  df_columns (round_apportioned_df thirds_in_a_column 0)
  = df_columns thirds_in_a_column /\
  column 0 (df_values (round_apportioned_df thirds_in_a_column 0))
  = round_apportioned (column 0 (df_values thirds_in_a_column)) 0.
Proof.
  apply (round_apportioned_df_by_column thirds_in_a_column 0 0).
  - split; [reflexivity|]. repeat constructor.
  - vm_compute. lia.
Defined.

(** ** Percentages that sum to the base *)






Section ColumnPercentages.

Context (df : DataFrame) (ax : Axis) (ignore_keys : ignore_arg)
  (base : Q) (keys : list label) (j : nat) (vs : list num) (t : Q).

Let data := loc_cols df (get_data_mask (df_columns df) (IgnoreList keys)).

Hypothesis Hwf : wf_df df.
Hypothesis Hax : resolve_axis ax = Ok 0.
Hypothesis Hkeys :
  percentages._resolve_ignored_keys (df_attrs df) 0 ignore_keys = Ok keys.
Hypothesis Hj : (j < ncols data)%nat.
Hypothesis Hcol : column j (df_values data) = vs ++ [Fin t].
Hypothesis Ht : ~ (t == 0)%Q.
Hypothesis Hvs : Forall finite_or_null vs.
Hypothesis Hsum : (Qsum (map value_or_0 vs) == t)%Q.


End ColumnPercentages.







(** ** Label tracking across chained calls *)

Lemma set_nested_key_step (data : gmap string pyobj) (key key2 : string)
    (rest : list string) (value : pyobj) :
  set_nested_key data (key :: key2 :: rest) value =
  let data1 := match data !! key with
               | None => <[key := PyDict ∅]> data
               | Some _ => data
               end in
  match data1 !! key with
  | Some (PyDict sub) =>
      let* sub' := set_nested_key sub (key2 :: rest) value in
      Ok (<[key := PyDict sub']> data1)
  | Some (PySet _) => Err TypeError
  | None => Err KeyError
  end.
Proof. reflexivity. Qed.

Lemma set_get_nested_key (data data' : gmap string pyobj)
    (keys : list string) (value : pyobj) :
  set_nested_key data keys value = Ok data' ->
  get_nested_key (PyDict data') keys = Ok (as_set value) /\
  forall k, Some k <> head keys -> data' !! k = data !! k.
Proof.
  revert data data'. induction keys as [|key rest IH]; intros data data' H;
    [done|].
  destruct rest as [|key2 rest].
  - simpl in H. injection H as <-. simpl. rewrite lookup_insert_eq. simpl.
    split; [by destruct value|].
    intros k Hk. rewrite lookup_insert_ne; [done|]. congruence.
  - rewrite set_nested_key_step in H. cbv zeta in H.
    set (data1 := match data !! key with
                  | Some _ => data
                  | None => <[key:=PyDict ∅]> data
                  end) in *.
    assert (H1 : forall k, k <> key -> data1 !! k = data !! k).
    { intros k Hk. subst data1. destruct (data !! key); [done|].
      by rewrite lookup_insert_ne. }
    destruct (data1 !! key) as [[s|sub]|] eqn:Hsub; try done.
    destruct (set_nested_key sub (key2 :: rest) value) as [sub'|] eqn:Hs;
      [|discriminate H].
    cbn [rbind] in H. injection H as <-.
    destruct (IH sub sub' Hs) as [IHg _]. split.
    + cbn [get_nested_key]. rewrite lookup_insert_eq. exact IHg.
    + intros k Hk. simpl in Hk.
      rewrite lookup_insert_ne by congruence. apply H1. congruence.
Qed.

(** X10: [get_nested_key] reads back what [set_nested_key] stored.
    After a set of labels is stored under a path of keys, reading that
    path returns the same set, and every top-level entry other than the
    first key of the path is as it was. *)
Theorem set_then_get_nested_key (data data' : gmap string pyobj)
    (keys : list string) (labels : gset string) :
  set_nested_key data keys (PySet labels) = Ok data' ->
  get_nested_key (PyDict data') keys = Ok labels /\
  forall k, Some k <> head keys -> data' !! k = data !! k.
Proof. apply (set_get_nested_key data data' keys (PySet labels)). Qed.

Lemma set_nested_key_other_transform (attrs attrs' : gmap string pyobj)
    (transform other : string) (value : pyobj) :
  transform <> other ->
  set_nested_key attrs (label_path transform) value = Ok attrs' ->
  get_nested_key (PyDict attrs') (label_path other)
  = get_nested_key (PyDict attrs) (label_path other).
Proof.
  intros Hne. unfold label_path. cbn [set_nested_key get_nested_key].
  destruct (attrs !! "flatbread"%string) as [[s|d]|] eqn:Hfb.
  - rewrite Hfb. done.
  - rewrite Hfb.
    destruct (d !! "labels"%string) as [[s|dl]|] eqn:Hl.
    + rewrite Hl. done.
    + rewrite Hl. cbn [rbind]. intros [= <-].
      rewrite lookup_insert_eq, lookup_insert_eq.
      by rewrite lookup_insert_ne.
    + rewrite lookup_insert_eq. cbn [rbind]. intros [= <-].
      rewrite lookup_insert_eq, lookup_insert_eq.
      by rewrite lookup_insert_ne, lookup_empty.
  - rewrite lookup_insert_eq, lookup_empty, lookup_insert_eq.
    cbn [rbind]. intros [= <-].
    rewrite lookup_insert_eq, lookup_insert_eq.
    by rewrite lookup_insert_ne, lookup_empty.
Qed.

(** X11: [tag_labels(transform)] only adds to the record of labels.  The
    result keeps index, columns and values; the labels tracked for
    [transform] become the ones tracked before together with the label
    arguments of this call; the labels tracked for every other transform
    are read back unchanged. *)
Theorem tag_labels_accumulates (transform : string)
    (key_label_params : list string) (kwargs : string -> option string)
    (r out : DataFrame) :
  tag_labels transform key_label_params kwargs (Ok r) = Ok out ->
  (df_index out = df_index r /\ df_columns out = df_columns r /\
   df_values out = df_values r) /\
  (exists existing,
     get_nested_key (PyDict (df_attrs r)) (label_path transform)
     = Ok existing /\
     get_nested_key (PyDict (df_attrs out)) (label_path transform)
     = Ok (existing ∪ list_to_set (labels_to_track key_label_params kwargs))) /\
  (forall other, transform <> other ->
     get_nested_key (PyDict (df_attrs out)) (label_path other)
     = get_nested_key (PyDict (df_attrs r)) (label_path other)).
Proof.
  unfold tag_labels. cbn [rbind].
  destruct (get_nested_key _ _) as [existing|] eqn:Hget; [|done].
  cbn [rbind].
  destruct (set_nested_key _ _ _) as [attrs|] eqn:Hset; [|done].
  cbn [rbind]. intros [= <-]. cbn [df_index df_columns df_values df_attrs].
  split; [done|]. split.
  - exists existing. split; [done|].
    by destruct (set_get_nested_key _ _ _ _ Hset) as [Hg _].
  - intros other Hne. by eapply set_nested_key_other_transform.
Qed.

Lemma tracked_after_tag (transform : string) (key_label_params : list string)
    (kwargs : string -> option string) (func_result : result DataFrame)
    (out : DataFrame) :
  tag_labels transform key_label_params kwargs func_result = Ok out ->
  exists dl tracked,
    tracked_labels (df_attrs out) = Ok (PyDict dl) /\
    dl !! transform = Some (PySet tracked) /\
    forall l, l ∈ labels_to_track key_label_params kwargs -> l ∈ tracked.
Proof.
  intros H. apply tag_labels_Ok in H
    as (r & _ & _ & _ & _ & d' & dl & tracked & Hfb & Hdl & Htr & Hin & _).
  exists dl, tracked. split; [|done].
  unfold tracked_labels. rewrite Hfb. simpl. by rewrite Hdl.
Qed.

Lemma tracked_get_dict (dl : gmap string pyobj) (category : string) :
  exists ls, tracked_get (PyDict dl) category = Ok ls /\
    forall s, dl !! category = Some (PySet s) ->
      forall l, l ∈ s -> LStr l ∈ ls.
Proof.
  unfold tracked_get. simpl. eexists. split; [done|].
  intros s Hs l Hl. rewrite Hs. simpl.
  apply list_elem_of_fmap. exists l. split; [done|].
  by apply elem_of_elements.
Qed.

(** X12: chaining after [add_totals].  When the label parameter is a
    key label of the configuration, the label that [add_totals] used is
    among the keys that [_resolve_ignored_keys] of the totals module
    computes from the result, for every axis and every [ignore_keys]
    argument, and the argument's own keys are kept as well. *)
Theorem add_totals_label_is_ignored_next (DEFAULTS : Defaults)
    (data : DataFrame) (kwargs : totals_kwargs) (out : DataFrame)
    (name : string) (axis : Z) (ignore_keys : ignore_arg) :
  totals.add_totals DEFAULTS data kwargs = Ok out ->
  "label"%string ∈ totals_key_labels DEFAULTS ->
  tk_label (inject_defaults_totals (totals_defaults DEFAULTS) kwargs)
    = Some name ->
  exists keys,
    totals._resolve_ignored_keys (df_attrs out) axis ignore_keys = Ok keys /\
    LStr name ∈ keys /\
    forall k, k ∈ listed ignore_keys -> k ∈ keys.
Proof.
  intros Hadd Hkl Hname. unfold totals.add_totals, totals.add_totals_call in Hadd.
  apply tracked_after_tag in Hadd as (dl & tracked & Htl & Hdl & Hin).
  assert (Hl : name ∈ tracked).
  { apply Hin. unfold labels_to_track. apply list_elem_of_omap.
    exists "label"%string. split; [done|]. exact Hname. }
  unfold totals._resolve_ignored_keys. rewrite Htl. cbn [rbind].
  destruct (tracked_get_dict dl "totals") as (tot & -> & Htot).
  cbn [rbind].
  destruct (tracked_get_dict dl "percentages") as (pct & -> & _).
  destruct (tracked_get_dict dl "differences") as (dif & -> & _).
  cbn [rbind].
  assert (Hn : LStr name ∈ tot) by (by eapply Htot).
  destruct (axis =? 1); eexists; (split; [done|]); split;
    try (intros k Hk); set_solver.
Qed.

(** ** The data mask under more keys and under repetition *)

Lemma matches_listed_mono (keys keys' : list label) (v : label) :
  (forall k, k ∈ keys -> k ∈ keys') ->
  matches_listed keys v -> matches_listed keys' v.
Proof.
  intros Hsub [He|(s & k & Hv & Hk & Hp)].
  - left. by apply Hsub.
  - right. exists s, k. split; [done|]. split; [by apply Hsub|done].
Qed.

Lemma should_keep_mono (keys keys' : list label) (v : label) :
  (forall k, k ∈ keys -> k ∈ keys') ->
  should_keep keys' v = true -> should_keep keys v = true.
Proof.
  intros Hsub. rewrite !should_keep_true. intros H Hm. apply H.
  by eapply matches_listed_mono.
Qed.

(** X13: [get_data_mask] is monotone in the keys: an entry that counts
    as data under a list of keys counts as data under every list whose
    keys are all among them. *)
Theorem get_data_mask_more_keys (index : Index)
    (ignore_keys ignore_keys' : ignore_arg) (i : nat) :
  (forall k, k ∈ listed ignore_keys -> k ∈ listed ignore_keys') ->
  get_data_mask index ignore_keys' !! i = Some true ->
  get_data_mask index ignore_keys !! i = Some true.
Proof.
  intros Hsub. rewrite !get_data_mask_listed.
  destruct index as [ks|n ks]; rewrite !list_lookup_fmap;
    destruct (ks !! i) as [k|]; simpl; try done; intros [= H]; f_equal.
  - by eapply should_keep_mono.
  - apply forallb_forall. intros v Hv.
    eapply should_keep_mono; [done|].
    by apply (proj1 (forallb_forall _ _) H).
Qed.

Lemma select_map_filter {A} (f : A -> bool) (l : list A) :
  Forall (fun x => f x = true) (select (map f l) l).
Proof.
  induction l as [|x l IH]; simpl; [constructor|].
  destruct (f x) eqn:Hx; [by constructor|done].
Qed.

Lemma get_data_mask_select_all (index : Index) (ignore_keys : ignore_arg) :
  Forall (fun b => b = true)
    (get_data_mask
       (index_select (get_data_mask index ignore_keys) index) ignore_keys).
Proof.
  rewrite !get_data_mask_listed.
  destruct index as [ks|n ks]; simpl;
    apply Forall_fmap; apply select_map_filter.
Qed.

(** X14: the entries that [get_data_mask] keeps contain no margin: the
    mask of the selected index, for the same keys, is true everywhere,
    and selecting by it again changes nothing. *)
Theorem get_data_mask_of_selection (index : Index) (ignore_keys : ignore_arg) :
  let kept := index_select (get_data_mask index ignore_keys) index in
  Forall (fun b => b = true) (get_data_mask kept ignore_keys) /\
  index_select (get_data_mask kept ignore_keys) kept = kept.
Proof.
  intros kept. pose proof (get_data_mask_select_all index ignore_keys) as H.
  split; [done|]. apply index_select_all_true; [done|].
  apply get_data_mask_length.
Qed.

(** X15: [drop_totals] is idempotent.  On a well-formed table its result
    is well formed, has the columns and the metadata of the input, and
    is returned unchanged by a second [drop_totals] with the same
    argument. *)
Theorem drop_totals_idempotent (data out : DataFrame)
    (ignore_keys : ignore_arg) :
  wf_df data ->
  totals.drop_totals data ignore_keys = Ok out ->
  wf_df out /\
  df_columns out = df_columns data /\
  df_attrs out = df_attrs data /\
  totals.drop_totals out ignore_keys = Ok out.
Proof.
  intros Hwf. unfold totals.drop_totals.
  destruct (match ignore_keys with IgnoreNone => _ | _ => _ end)
    as [ik|] eqn:Hik; [|done].
  cbn [rbind]. intros [= <-]. split; [by apply wf_loc_rows|].
  split; [done|]. split; [done|].
  cbn [df_attrs loc_rows]. rewrite Hik. cbn [rbind]. f_equal.
  pose proof (get_data_mask_select_all (df_index data) ik) as Hall.
  unfold loc_rows. cbn [df_index df_columns df_values df_attrs].
  set (mask := get_data_mask (df_index data) ik) in *.
  set (mask' := get_data_mask (index_select mask (df_index data)) ik) in *.
  assert (Hlen : length mask' = index_len (index_select mask (df_index data))).
  { apply get_data_mask_length. }
  f_equal.
  - by apply index_select_all_true.
  - apply select_all_true; [done|]. rewrite Hlen. symmetry.
    apply index_select_len. apply Hwf.
Qed.

Lemma set_then_get_nested_key_witness :
  get_nested_key (PyDict attrs_tracked_totals) (label_path "totals")
  = Ok {[ "Totals"%string ]} /\
  forall k, Some k <> head (label_path "totals") ->
    attrs_tracked_totals !! k = (∅ : gmap string pyobj) !! k.
Proof.
  apply (set_then_get_nested_key ∅ attrs_tracked_totals
           (label_path "totals") {[ "Totals"%string ]}).
  by vm_compute.
Defined.

Lemma tag_labels_accumulates_witness :
  (df_index (table_with_totals attrs_tracked_totals)
   = df_index (table_with_totals ∅) /\
   df_columns (table_with_totals attrs_tracked_totals)
   = df_columns (table_with_totals ∅) /\
   df_values (table_with_totals attrs_tracked_totals)
   = df_values (table_with_totals ∅)) /\
  (exists existing,
     get_nested_key (PyDict (df_attrs (table_with_totals ∅)))
       (label_path "totals") = Ok existing /\
     get_nested_key (PyDict (df_attrs (table_with_totals attrs_tracked_totals)))
       (label_path "totals")
     = Ok (existing ∪ list_to_set
             (labels_to_track ["label"%string]
                (fun _ => Some "Totals"%string)))) /\
  (forall other, "totals"%string <> other ->
     get_nested_key (PyDict (df_attrs (table_with_totals attrs_tracked_totals)))
       (label_path other)
     = get_nested_key (PyDict (df_attrs (table_with_totals ∅)))
         (label_path other)).
Proof.
  apply (tag_labels_accumulates "totals" ["label"%string]
           (fun _ => Some "Totals"%string)).
  by vm_compute.
Defined.

Lemma add_totals_label_is_ignored_next_witness :
  exists keys,
    totals._resolve_ignored_keys
      (df_attrs (table_with_totals attrs_tracked_totals)) 1
      (IgnoreStr "pct") = Ok keys /\
    LStr "Totals" ∈ keys /\
    forall k, k ∈ listed (IgnoreStr "pct") -> k ∈ keys.
Proof.
  apply (add_totals_label_is_ignored_next DEFAULTS_spec test_table no_kwargs
           (table_with_totals attrs_tracked_totals) "Totals").
  - by vm_compute.
  - simpl. left.
  - reflexivity.
Defined.

Lemma get_data_mask_more_keys_witness :
  get_data_mask (FlatIndex [LStr "A"; LStr "Totals"; LStr "pct"])
    (IgnoreStr "Totals") !! 0%nat = Some true.
Proof.
  apply (get_data_mask_more_keys _ (IgnoreStr "Totals")
           (IgnoreList [LStr "Totals"; LStr "pct"]) 0%nat).
  - intros k Hk. apply list_elem_of_singleton in Hk as ->. by left.
  - reflexivity.
Defined.

Lemma drop_totals_idempotent_witness :
  wf_df test_table /\
  df_columns test_table = df_columns (test_table_totals_row) /\
  df_attrs test_table = df_attrs (test_table_totals_row) /\
  totals.drop_totals test_table (IgnoreStr "Totals") = Ok test_table.
Proof.
  apply (drop_totals_idempotent (test_table_totals_row) test_table
           (IgnoreStr "Totals")).
  - split; [reflexivity|]. repeat constructor.
  - by vm_compute.
Defined.

(** ** Splitting values and totals by label *)

Lemma label_hits_absent (name : string) (ks : list label) :
  LStr name ∉ ks -> label_hits name ks = replicate (length ks) false.
Proof.
  induction ks as [|k ks IH]; intros Hn; simpl; [done|].
  apply not_elem_of_cons in Hn as [Hk Hn].
  rewrite bool_decide_eq_false_2 by congruence. f_equal. by apply IH.
Qed.

Lemma label_hits_once (name : string) (ks1 ks2 : list label) :
  LStr name ∉ ks1 -> LStr name ∉ ks2 ->
  label_hits name (ks1 ++ LStr name :: ks2)
  = replicate (length ks1) false ++ true :: replicate (length ks2) false.
Proof.
  intros H1 H2. unfold label_hits. rewrite map_app. simpl.
  rewrite bool_decide_eq_true_2 by done.
  fold (label_hits name ks1). fold (label_hits name ks2).
  by rewrite !label_hits_absent.
Qed.

Lemma select_replicate_false {A} (n : nat) (l : list A) :
  select (replicate n false) l = [].
Proof.
  revert l. induction n as [|n IH]; intros [|x l]; simpl; auto.
Qed.

Lemma select_replicate_true {A} (n : nat) (l : list A) :
  length l = n -> select (replicate n true) l = l.
Proof.
  intros <-. induction l as [|x l IH]; simpl; [done|]. by rewrite IH.
Qed.

Lemma select_once {A} (n1 n2 : nat) (l1 l2 : list A) (x : A) :
  length l1 = n1 ->
  select (replicate n1 false ++ true :: replicate n2 false) (l1 ++ x :: l2)
  = [x].
Proof.
  intros H1. rewrite select_app by (by rewrite length_replicate).
  rewrite select_replicate_false. simpl. by rewrite select_replicate_false.
Qed.

Lemma select_but_once {A} (n1 n2 : nat) (l1 l2 : list A) (x : A) :
  length l1 = n1 -> length l2 = n2 ->
  select (map negb (replicate n1 false ++ true :: replicate n2 false))
    (l1 ++ x :: l2)
  = l1 ++ l2.
Proof.
  intros H1 H2. rewrite map_app. simpl.
  assert (Hr : forall n, map negb (replicate n false) = replicate n true).
  { induction n as [|n IH]; simpl; [done|]. by rewrite IH. }
  rewrite !Hr. rewrite select_app by (by rewrite length_replicate).
  simpl. by rewrite !select_replicate_true.
Qed.

Lemma unique_hit_once (n1 n2 : nat) :
  unique_hit (replicate n1 false ++ true :: replicate n2 false) = Ok tt.
Proof.
  unfold unique_hit.
  rewrite (select_once n1 n2 (replicate n1 false) (replicate n2 false) true);
    [done|by rewrite length_replicate].
Qed.

Lemma unique_hit_none (n : nat) :
  unique_hit (replicate n false) = Err KeyError.
Proof. unfold unique_hit. by rewrite select_replicate_false. Qed.

Lemma drop_rows_once (data : DataFrame) (name : string)
    (ks1 ks2 : list label) (rows1 rows2 : list (list num)) (row : list num) :
  label_once_at (df_index data) name ks1 ks2 ->
  df_values data = rows1 ++ row :: rows2 ->
  length rows1 = length ks1 -> length rows2 = length ks2 ->
  drop_rows data name
  = Ok (mkDataFrame (FlatIndex (ks1 ++ ks2)) (df_columns data)
          (rows1 ++ rows2) (df_attrs data)) /\
  loc_row data name = Ok (TotalsVec (df_columns data) row).
Proof.
  intros (Hix & Hn1 & Hn2) Hv Hl1 Hl2. unfold drop_rows, loc_row.
  rewrite Hix. cbn [flat_keys rbind]. rewrite label_hits_once by done.
  rewrite unique_hit_once. cbn [rbind]. split.
  - unfold loc_rows. rewrite Hix, Hv. cbn [index_select]. do 2 f_equal.
    + f_equal. by apply select_but_once.
    + by apply select_but_once.
  - rewrite Hv. by rewrite select_once.
Qed.

(** The cell of [row] at position [n], as [loc] reads it. *)
Lemma select_once_hd (n1 n2 : nat) (row : list num) :
  hd NaN (select (replicate n1 false ++ true :: replicate n2 false) row)
  = nth n1 row NaN.
Proof.
  revert row. induction n1 as [|n1 IH]; intros [|x row]; simpl; done.
Qed.

Lemma select_but_once_row (n1 n2 : nat) (row : list num) :
  length row = (n1 + S n2)%nat ->
  select (map negb (replicate n1 false ++ true :: replicate n2 false)) row
  = take n1 row ++ drop (S n1) row.
Proof.
  intros Hlen.
  rewrite <- (take_drop n1 row) at 1.
  destruct (drop n1 row) as [|x rest] eqn:Hd.
  { apply (f_equal length) in Hd. rewrite length_drop in Hd. simpl in Hd. lia. }
  assert (Hrest : drop (S n1) row = rest).
  { change (S n1) with (1 + n1)%nat. rewrite Nat.add_comm, <- drop_drop, Hd.
    done. }
  rewrite Hrest. apply select_but_once.
  - rewrite length_take. lia.
  - apply (f_equal length) in Hd. rewrite length_drop in Hd. simpl in Hd. lia.
Qed.

Lemma drop_cols_once (data : DataFrame) (name : string)
    (cs1 cs2 : list label) :
  wf_df data ->
  label_once_at (df_columns data) name cs1 cs2 ->
  drop_cols data name
  = Ok (mkDataFrame (df_index data) (FlatIndex (cs1 ++ cs2))
          (map (fun row => take (length cs1) row ++ drop (S (length cs1)) row)
             (df_values data))
          (df_attrs data)) /\
  loc_col data name
  = Ok (TotalsVec (df_index data)
          (map (fun row => nth (length cs1) row NaN) (df_values data))).
Proof.
  intros [_ Hwf] (Hcs & Hn1 & Hn2). unfold drop_cols, loc_col.
  rewrite Hcs. cbn [flat_keys rbind]. rewrite label_hits_once by done.
  rewrite unique_hit_once. cbn [rbind]. split.
  - unfold loc_cols. rewrite Hcs. cbn [index_select]. do 2 f_equal.
    + f_equal. by apply select_but_once.
    + apply map_ext_Forall. eapply Forall_impl; [exact Hwf|].
      intros row Hrow. cbv beta in Hrow. apply select_but_once_row.
      rewrite Hrow. unfold ncols. rewrite Hcs. simpl. rewrite length_app.
      simpl. lia.
  - f_equal. f_equal. apply map_ext. intros row. apply select_once_hd.
Qed.

Lemma rows_split (data : DataFrame) (name : string) (ks1 ks2 : list label) :
  wf_df data ->
  label_once_at (df_index data) name ks1 ks2 ->
  exists row,
    df_values data !! length ks1 = Some row /\
    length row = ncols data /\
    df_values data
    = take (length ks1) (df_values data) ++ row
        :: drop (S (length ks1)) (df_values data) /\
    length (take (length ks1) (df_values data)) = length ks1 /\
    length (drop (S (length ks1)) (df_values data)) = length ks2.
Proof.
  intros [Hr Hc] (Hix & _ & _).
  assert (Hlen : length (df_values data) = (length ks1 + S (length ks2))%nat).
  { rewrite Hr. unfold nrows. rewrite Hix. simpl. by rewrite length_app. }
  destruct (lookup_lt_is_Some_2 (df_values data) (length ks1)) as [row Hrow];
    [lia|].
  exists row. split; [done|]. split.
  { by apply (Forall_lookup_1 _ _ _ _ Hc Hrow). }
  split; [by rewrite take_drop_middle|].
  rewrite length_take, length_drop. lia.
Qed.

Lemma loc_cell_once (data : DataFrame) (name : string)
    (ks1 ks2 cs1 cs2 : list label) (row : list num) :
  wf_df data ->
  label_once_at (df_index data) name ks1 ks2 ->
  label_once_at (df_columns data) name cs1 cs2 ->
  df_values data !! length ks1 = Some row ->
  loc_cell data name name = Ok (TotalsScalar (nth (length cs1) row NaN)).
Proof.
  intros Hwf Hix Hcs Hrow.
  destruct (rows_split data name ks1 ks2 Hwf Hix)
    as (row' & Hrow' & _ & Hv & Hl1 & Hl2).
  rewrite Hrow in Hrow'. injection Hrow' as <-.
  destruct Hix as (Hix & Hn1 & Hn2), Hcs as (Hcs & Hc1 & Hc2).
  unfold loc_cell. rewrite Hix, Hcs. cbn [flat_keys rbind].
  rewrite !label_hits_once by done. rewrite !unique_hit_once. cbn [rbind].
  rewrite Hv at 1. rewrite select_once by done.
  by rewrite select_once_hd.
Qed.

Lemma from_data_by_label_core (data : DataFrame) (ax : Axis) (a : Z)
    (name : string) (ks1 ks2 cs1 cs2 : list label) :
  wf_df data ->
  resolve_axis ax = Ok a ->
  (a <> 1 -> label_once_at (df_index data) name ks1 ks2) ->
  (a <> 0 -> label_once_at (df_columns data) name cs1 cs2) ->
  let r := length ks1 in
  let c := length cs1 in
  from_data data ax (Some name) =
  match a with
  | 0 =>
      Ok (mkVT
            (mkDataFrame (FlatIndex (ks1 ++ ks2)) (df_columns data)
               (delete r (df_values data)) (df_attrs data))
            (TotalsVec (df_columns data) (nth r (df_values data) []))
            0)
  | 1 =>
      Ok (mkVT
            (mkDataFrame (df_index data) (FlatIndex (cs1 ++ cs2))
               (map (delete c) (df_values data)) (df_attrs data))
            (TotalsVec (df_index data) (column c (df_values data)))
            1)
  | _ =>
      Ok (mkVT
            (mkDataFrame (FlatIndex (ks1 ++ ks2)) (FlatIndex (cs1 ++ cs2))
               (map (delete c) (delete r (df_values data))) (df_attrs data))
            (TotalsScalar (nth c (nth r (df_values data) []) NaN))
            2)
  end.
Proof.
  intros Hwf Ha Hix Hcs r c. unfold from_data. rewrite Ha. cbn [rbind].
  destruct (resolve_axis_range _ _ Ha) as [-> | [-> | ->]]; cbn [Z.eqb Pos.eqb].
  - specialize (Hix ltac:(done)).
    destruct (rows_split data name ks1 ks2 Hwf Hix)
      as (row & Hrow & _ & Hv & Hl1 & Hl2).
    destruct (drop_rows_once data name ks1 ks2 _ _ row Hix Hv Hl1 Hl2)
      as [-> ->].
    cbn [rbind fst snd]. rewrite delete_take_drop.
    by rewrite (nth_lookup_Some _ _ _ _ Hrow).
  - specialize (Hcs ltac:(done)).
    destruct (drop_cols_once data name cs1 cs2 Hwf Hcs) as [-> ->].
    cbn [rbind fst snd]. do 3 f_equal.
    apply map_ext. intros row. by rewrite delete_take_drop.
  - specialize (Hix ltac:(done)). specialize (Hcs ltac:(done)).
    destruct (rows_split data name ks1 ks2 Hwf Hix)
      as (row & Hrow & _ & Hv & Hl1 & Hl2).
    destruct (drop_rows_once data name ks1 ks2 _ _ row Hix Hv Hl1 Hl2)
      as [-> _].
    cbn [rbind].
    set (values0 := mkDataFrame _ _ _ _).
    assert (Hwf0 : wf_df values0).
    { destruct Hwf as [Hr Hc]. split.
      - unfold nrows, values0. simpl. rewrite !length_app. lia.
      - unfold values0, ncols. simpl.
        rewrite Hv in Hc. apply Forall_app in Hc as [H1 H2].
        apply Forall_cons in H2 as [_ H2]. apply Forall_app. done. }
    destruct (drop_cols_once values0 name cs1 cs2 Hwf0 Hcs) as [-> _].
    cbn [rbind].
    rewrite (loc_cell_once data name ks1 ks2 cs1 cs2 row Hwf Hix Hcs Hrow).
    cbn [rbind fst snd]. unfold values0. cbn [df_index df_columns df_values df_attrs].
    rewrite delete_take_drop, (nth_lookup_Some _ _ _ _ Hrow).
    do 3 f_equal. apply map_ext. intros row'. by rewrite delete_take_drop.
Qed.

Lemma delete_last_position {A} (n : nat) (l : list A) :
  length l = S n -> delete n l = but_last l.
Proof.
  intros Hl. rewrite delete_take_drop. unfold but_last. rewrite Hl.
  rewrite drop_ge by lia. rewrite app_nil_r. f_equal. lia.
Qed.

Lemma nth_last_position {A} (n : nat) (l : list A) (d : A) :
  length l = S n -> last l = Some (nth n l d).
Proof.
  intros Hl. rewrite last_lookup, Hl. simpl.
  destruct (lookup_lt_is_Some_2 l n) as [x Hx]; [lia|].
  by rewrite (nth_lookup_Some _ _ _ _ Hx).
Qed.

(** X16: when the label of the totals is the last key of the axis that is
    split (and occurs nowhere else on it), naming it gives the same
    outcome as the default [label_totals = None]. *)
Theorem from_data_label_of_last (data : DataFrame) (ax : Axis) (a : Z)
    (name : string) :
  wf_df data ->
  resolve_axis ax = Ok a ->
  (a <> 1 -> ends_with_label (df_index data) name) ->
  (a <> 0 -> ends_with_label (df_columns data) name) ->
  from_data data ax (Some name) = from_data data ax None.
Proof.
  intros Hwf Ha Hix Hcs.
  assert (Hks : exists ks, a <> 1 -> label_once_at (df_index data) name ks []).
  { destruct (decide (a = 1)) as [->|Hne]; [by exists []|].
    destruct (Hix Hne) as [ks Hks]. by exists ks. }
  assert (Hcc : exists cs, a <> 0 -> label_once_at (df_columns data) name cs []).
  { destruct (decide (a = 0)) as [->|Hne]; [by exists []|].
    destruct (Hcs Hne) as [cs Hc]. by exists cs. }
  destruct Hks as [ks Hks], Hcc as [cs Hcc].
  rewrite (from_data_by_label_core data ax a name ks [] cs [] Hwf Ha Hks Hcc).
  cbv zeta. unfold from_data. rewrite Ha. cbn [rbind].
  destruct Hwf as [Hr Hc].
  destruct (resolve_axis_range _ _ Ha) as [-> | [-> | ->]]; cbn [Z.eqb Pos.eqb].
  - destruct (Hks ltac:(done)) as (Hi & _ & _).
    assert (Hlen : length (df_values data) = S (length ks)).
    { rewrite Hr. unfold nrows. rewrite Hi. simpl. rewrite length_app.
      simpl. lia. }
    unfold iloc_last_row, iloc_rows_init.
    rewrite (nth_last_position (length ks) (df_values data) [] Hlen).
    cbn [rbind fst snd]. rewrite Hi. cbn [index_but_last].
    rewrite (delete_last_position _ _ Hlen), app_nil_r.
    do 3 f_equal. unfold but_last. rewrite length_app. simpl.
    rewrite take_app_length'; [done|lia].
  - destruct (Hcc ltac:(done)) as (Hi & _ & _).
    assert (Hn : ncols data = S (length cs)).
    { unfold ncols. rewrite Hi. simpl. rewrite length_app. simpl. lia. }
    unfold iloc_last_col, iloc_cols_init. rewrite Hn.
    cbn [rbind fst snd]. rewrite Hi. cbn [index_but_last].
    rewrite app_nil_r. f_equal. f_equal; [f_equal|f_equal].
    + f_equal. unfold but_last. rewrite length_app. simpl.
      rewrite take_app_length'; [done|lia].
    + apply map_ext_Forall. eapply Forall_impl; [exact Hc|].
      intros row Hrow. cbv beta in Hrow. apply delete_last_position. congruence.
    + unfold column. apply map_ext_Forall. eapply Forall_impl; [exact Hc|].
      intros row Hrow. cbv beta in Hrow.
      rewrite (nth_last_position (length cs) row NaN) by congruence. done.
  - destruct (Hks ltac:(done)) as (Hi & _ & _).
    destruct (Hcc ltac:(done)) as (Hj & _ & _).
    assert (Hlen : length (df_values data) = S (length ks)).
    { rewrite Hr. unfold nrows. rewrite Hi. simpl. rewrite length_app.
      simpl. lia. }
    assert (Hn : ncols data = S (length cs)).
    { unfold ncols. rewrite Hj. simpl. rewrite length_app. simpl. lia. }
    unfold iloc_last_cell, iloc_cols_init, iloc_rows_init.
    cbn [df_index df_columns df_values df_attrs].
    rewrite (nth_last_position (length ks) (df_values data) [] Hlen).
    assert (Hrow : length (nth (length ks) (df_values data) []) = S (length cs)).
    { rewrite <- Hn.
      apply (last_Forall (fun r => length r = ncols data) _ _ Hc).
      by apply nth_last_position. }
    rewrite (nth_last_position (length cs) _ NaN Hrow).
    cbn [rbind fst snd]. rewrite Hi, Hj. cbn [index_but_last].
    rewrite !app_nil_r. f_equal. f_equal. f_equal.
    + f_equal. unfold but_last. rewrite length_app. simpl.
      rewrite take_app_length'; [done|lia].
    + f_equal. unfold but_last. rewrite length_app. simpl.
      rewrite take_app_length'; [done|lia].
    + rewrite (delete_last_position _ _ Hlen).
      apply map_ext_Forall.
      assert (Hc' : Forall (fun row => length row = ncols data)
                      (but_last (df_values data))).
      { unfold but_last. by apply Forall_take. }
      eapply Forall_impl; [exact Hc'|].
      intros row Hr'. cbv beta in Hr'. apply delete_last_position. congruence.
Qed.

(** X17: a [label_totals] that is not among the keys of the row index
    (axes 0 and 2) or of the columns (axis 1) makes [from_data] fail
    with a KeyError. *)
Theorem from_data_missing_label (data : DataFrame) (ax : Axis) (a : Z)
    (name : string) :
  resolve_axis ax = Ok a ->
  (a <> 1 -> exists ks, df_index data = FlatIndex ks /\ LStr name ∉ ks) ->
  (a = 1 -> exists cs, df_columns data = FlatIndex cs /\ LStr name ∉ cs) ->
  from_data data ax (Some name) = Err KeyError.
Proof.
  intros Ha Hix Hcs. unfold from_data. rewrite Ha. cbn [rbind].
  destruct (resolve_axis_range _ _ Ha) as [-> | [-> | ->]]; cbn [Z.eqb Pos.eqb].
  - destruct (Hix ltac:(done)) as (ks & Hk & Hn).
    unfold drop_rows. rewrite Hk. cbn [flat_keys rbind].
    by rewrite label_hits_absent, unique_hit_none.
  - destruct (Hcs ltac:(done)) as (cs & Hk & Hn).
    unfold drop_cols. rewrite Hk. cbn [flat_keys rbind].
    by rewrite label_hits_absent, unique_hit_none.
  - destruct (Hix ltac:(done)) as (ks & Hk & Hn).
    unfold drop_rows. rewrite Hk. cbn [flat_keys rbind].
    by rewrite label_hits_absent, unique_hit_none.
Qed.

(** X18: with [label_totals = None], [from_data] fails with an IndexError
    on a table that has no row (axes 0 and 2) or no column (axes 1 and
    2): there is no last position to take the totals from. *)
Theorem from_data_positional_empty (data : DataFrame) (ax : Axis) (a : Z) :
  wf_df data ->
  resolve_axis ax = Ok a ->
  (a <> 1 /\ nrows data = 0%nat) \/ (a <> 0 /\ ncols data = 0%nat) ->
  from_data data ax None = Err IndexError.
Proof.
  intros [Hr Hc] Ha Hempty. unfold from_data. rewrite Ha. cbn [rbind].
  assert (Hrows : nrows data = 0%nat -> last (df_values data) = None).
  { intros H0. rewrite H0 in Hr. by destruct (df_values data). }
  destruct (resolve_axis_range _ _ Ha) as [-> | [-> | ->]]; cbn [Z.eqb Pos.eqb].
  - destruct Hempty as [[_ H0]|[? _]]; [|done].
    unfold iloc_last_row. by rewrite Hrows.
  - destruct Hempty as [[? _]|[_ H0]]; [done|].
    unfold iloc_last_col. by rewrite H0.
  - unfold iloc_last_cell.
    destruct (last (df_values data)) as [r|] eqn:Hl; [|done].
    destruct Hempty as [[_ H0]|[_ H0]].
    + specialize (Hrows H0). congruence.
    + pose proof (last_Forall _ _ _ Hc Hl) as Hlen. cbv beta in Hlen.
      rewrite H0 in Hlen. destruct r; [done|discriminate Hlen].
Qed.

(** X19: [from_data] with a label.  On a well-formed table whose flat
    index (axes 0 and 2) and flat columns (axes 1 and 2) carry
    [label_totals] exactly once, [from_data] succeeds: the totals are
    the row, the column or the cell at the position of the label, and
    the values are the table with exactly that row, that column or both
    deleted, wherever the label sits. *)
Theorem from_data_by_label (data : DataFrame) (ax : Axis) (a : Z)
    (name : string) (ks1 ks2 cs1 cs2 : list label) :
  wf_df data ->
  resolve_axis ax = Ok a ->
  (a <> 1 -> label_once_at (df_index data) name ks1 ks2) ->
  (a <> 0 -> label_once_at (df_columns data) name cs1 cs2) ->
  let r := length ks1 in
  let c := length cs1 in
  from_data data ax (Some name) =
  match a with
  | 0 =>
      Ok (mkVT
            (mkDataFrame (FlatIndex (ks1 ++ ks2)) (df_columns data)
               (delete r (df_values data)) (df_attrs data))
            (TotalsVec (df_columns data) (nth r (df_values data) []))
            0)
  | 1 =>
      Ok (mkVT
            (mkDataFrame (df_index data) (FlatIndex (cs1 ++ cs2))
               (map (delete c) (df_values data)) (df_attrs data))
            (TotalsVec (df_index data) (column c (df_values data)))
            1)
  | _ =>
      Ok (mkVT
            (mkDataFrame (FlatIndex (ks1 ++ ks2)) (FlatIndex (cs1 ++ cs2))
               (map (delete c) (delete r (df_values data))) (df_attrs data))
            (TotalsScalar (nth c (nth r (df_values data) []) NaN))
            2)
  end.
Proof. apply from_data_by_label_core. Qed.


Ltac not_listed :=
  repeat (apply not_elem_of_cons; split; [discriminate|]);
  apply not_elem_of_nil.

Lemma from_data_by_label_witness :
  from_data table_totals_inside (AxStr "both") (Some "Totals"%string)
  = Ok (mkVT
          (mkDataFrame (FlatIndex [LInt 0; LInt 1])
             (FlatIndex [LStr "A"; LStr "B"])
             [[Fin 10; Fin 15]; [Fin 20; Fin 25]] ∅)
          (TotalsScalar (Fin 70)) 2).
Proof.
  apply (from_data_by_label table_totals_inside (AxStr "both") 2 "Totals"
           [LInt 0] [LInt 1] [] [LStr "A"; LStr "B"]).
  - split; [reflexivity|]. repeat constructor.
  - reflexivity.
  - intros _. split; [reflexivity|]. split; not_listed.
  - intros _. split; [reflexivity|]. split; not_listed.
Defined.

Lemma from_data_label_of_last_witness :
  from_data test_table_totals_row (AxInt 0) (Some "Totals"%string)
  = from_data test_table_totals_row (AxInt 0) None.
Proof.
  apply (from_data_label_of_last test_table_totals_row (AxInt 0) 0 "Totals").
  - split; [reflexivity|]. repeat constructor.
  - reflexivity.
  - intros _. exists [LInt 0; LInt 1; LInt 2].
    split; [reflexivity|]. split; not_listed.
  - intros H. done.
Defined.

Lemma from_data_missing_label_witness :
  from_data test_table (AxInt 0) (Some "Totals"%string) = Err KeyError.
Proof.
  apply (from_data_missing_label test_table (AxInt 0) 0 "Totals").
  - reflexivity.
  - intros _. exists [LInt 0; LInt 1; LInt 2]. split; [reflexivity|].
    not_listed.
  - intros H. done.
Defined.

Lemma from_data_positional_empty_witness :
  from_data table_without_rows (AxInt 0) None = Err IndexError.
Proof.
  apply (from_data_positional_empty table_without_rows (AxInt 0) 0).
  - split; [reflexivity|]. constructor.
  - reflexivity.
  - left. split; [done|reflexivity].
Defined.


(** ** Percentages of a series *)








(** ** Subtotals level by level *)

Section Subtotals.

Context (DEFAULTS : Defaults) (default_label : option string)
  (default_ignore_keys : ignore_arg) (add_subagg : add_subagg_type).

Lemma add_subtotals_levels_app (data : DataFrame) (axis : Axis)
    (ls1 ls2 : list Level) (name : option string) (inc : bool)
    (ignore_keys : ignore_arg) (skip : bool) (_fill : string) :
  add_subtotals_levels DEFAULTS default_label default_ignore_keys add_subagg
    data axis (ls1 ++ ls2) name inc ignore_keys skip _fill
  = let* r :=
      add_subtotals_levels DEFAULTS default_label default_ignore_keys
        add_subagg data axis ls1 name inc ignore_keys skip _fill in
    add_subtotals_levels DEFAULTS default_label default_ignore_keys add_subagg
      r axis ls2 name inc ignore_keys skip _fill.
Proof.
  revert data. induction ls1 as [|l ls1 IH]; intros data; simpl; [done|].
  destruct (_add_subtotals _ _ _ _ data axis l name inc ignore_keys skip _fill)
    as [r|e]; simpl; [apply IH|done].
Qed.

Lemma add_subtotals_levels_last (data out : DataFrame) (axis : Axis)
    (ls : list Level) (name : option string) (inc : bool)
    (ignore_keys : ignore_arg) (skip : bool) (_fill : string) :
  ls <> [] ->
  add_subtotals_levels DEFAULTS default_label default_ignore_keys add_subagg
    data axis ls name inc ignore_keys skip _fill = Ok out ->
  exists r l,
    _add_subtotals DEFAULTS default_label default_ignore_keys add_subagg
      r axis l name inc ignore_keys skip _fill = Ok out.
Proof.
  revert data. induction ls as [|l ls IH]; intros data Hne H; [done|].
  simpl in H.
  destruct (_add_subtotals _ _ _ _ data axis l name inc ignore_keys skip _fill)
    as [r|e] eqn:Hr; [|done]. simpl in H.
  destruct ls as [|l' ls].
  - simpl in H. injection H as <-. by exists data, l.
  - by apply (IH r).
Qed.

End Subtotals.

(** X23: [add_subtotals] handles a list of levels one level after the
    other, whatever [add_subagg] does: an empty list returns the table as
    it is, a list of one level is the call for that level, and the call
    for two lists joined is the call for the first list followed, when
    it succeeds, by the call for the second on its result. *)
Theorem add_subtotals_level_by_level (DEFAULTS : Defaults)
    (default_label : option string) (default_ignore_keys : ignore_arg)
    (add_subagg : add_subagg_type)
    (data : DataFrame) (axis : Axis) (name : option string) (inc : bool)
    (ignore_keys : ignore_arg) (skip : bool) (_fill : string) :
  let sub := fun d level =>
    add_subtotals DEFAULTS default_label default_ignore_keys add_subagg
      d axis level name inc ignore_keys skip _fill in
  sub data (LevelList []) = Ok data /\
  (forall l, sub data (LevelList [l]) = sub data (OneLevel l)) /\
  (forall ls1 ls2,
     sub data (LevelList (ls1 ++ ls2))
     = let* r := sub data (LevelList ls1) in sub r (LevelList ls2)).
Proof.
  intros sub. split; [done|]. split.
  - intros l. unfold sub. simpl.
    by destruct (_add_subtotals _ _ _ _ data axis l name inc ignore_keys skip
                   _fill).
  - intros ls1 ls2. apply add_subtotals_levels_app.
Qed.

Lemma tracked_total_is_ignored (attrs : gmap string pyobj)
    (dl : gmap string pyobj) (tracked : gset string) (name : string)
    (axis : Z) (ignore_keys : ignore_arg) :
  tracked_labels attrs = Ok (PyDict dl) ->
  dl !! "totals"%string = Some (PySet tracked) ->
  name ∈ tracked ->
  exists keys,
    totals._resolve_ignored_keys attrs axis ignore_keys = Ok keys /\
    LStr name ∈ keys /\
    forall k, k ∈ listed ignore_keys -> k ∈ keys.
Proof.
  intros Htl Hdl Hl.
  unfold totals._resolve_ignored_keys. rewrite Htl. cbn [rbind].
  destruct (tracked_get_dict dl "totals") as (tot & -> & Htot).
  cbn [rbind].
  destruct (tracked_get_dict dl "percentages") as (pct & -> & _).
  destruct (tracked_get_dict dl "differences") as (dif & -> & _).
  cbn [rbind].
  assert (Hn : LStr name ∈ tot) by (by eapply Htot).
  destruct (axis =? 1); eexists; (split; [done|]); split;
    try (intros k Hk); rewrite ?elem_of_app; auto.
Qed.

(** X24: chaining after [add_subtotals].  Subtotals are tagged as totals:
    when the label parameter is a key label of the totals configuration
    and at least one level is processed, the label that [add_subtotals]
    used is among the keys that [_resolve_ignored_keys] of the totals
    module computes from the result, whatever [add_subagg] does. *)
Theorem add_subtotals_label_is_ignored_next (DEFAULTS : Defaults)
    (default_label : option string) (default_ignore_keys : ignore_arg)
    (add_subagg : add_subagg_type)
    (data out : DataFrame) (axis : Axis) (level : level_arg)
    (label_arg : option string) (inc : bool) (ignore_keys : ignore_arg)
    (skip : bool) (_fill : string)
    (name : string) (next_axis : Z) (next_ignore_keys : ignore_arg) :
  add_subtotals DEFAULTS default_label default_ignore_keys add_subagg
    data axis level label_arg inc ignore_keys skip _fill = Ok out ->
  level <> LevelList [] ->
  "label"%string ∈ totals_key_labels DEFAULTS ->
  inject default_label label_arg = Some name ->
  exists keys,
    totals._resolve_ignored_keys (df_attrs out) next_axis next_ignore_keys
    = Ok keys /\
    LStr name ∈ keys /\
    forall k, k ∈ listed next_ignore_keys -> k ∈ keys.
Proof.
  intros Hsub Hlevel Hkl Hname.
  assert (Hcall : exists r l,
    _add_subtotals DEFAULTS default_label default_ignore_keys add_subagg
      r axis l label_arg inc ignore_keys skip _fill = Ok out).
  { destruct level as [l|ls]; [by exists data, l|].
    apply (add_subtotals_levels_last _ _ _ _ data out axis ls); [|done].
    congruence. }
  destruct Hcall as (r & l & Hcall).
  unfold _add_subtotals, _add_subtotals_call in Hcall.
  destruct (forallb _ _); [|done].
  apply tracked_after_tag in Hcall as (dl & tracked & Htl & Hdl & Hin).
  apply (tracked_total_is_ignored _ dl tracked); [done|done|].
  apply Hin. unfold labels_to_track. apply list_elem_of_omap.
  exists "label"%string. split; [done|].
  unfold subtotals_label_kwarg. simpl. exact Hname.
Qed.

Lemma add_subtotals_label_is_ignored_next_witness :
  exists keys,
    totals._resolve_ignored_keys (df_attrs table_with_subtotals) 0 IgnoreNone
    = Ok keys /\
    LStr "Subtotals" ∈ keys /\
    forall k, k ∈ listed IgnoreNone -> k ∈ keys.
Proof.
  apply (add_subtotals_label_is_ignored_next DEFAULTS_spec
           (Some "Subtotals"%string) IgnoreNone add_subagg_one_group
           test_table table_with_subtotals (AxInt 0)
           (LevelList [LevelInt 0]) None false IgnoreNone true ""
           "Subtotals").
  - by vm_compute.
  - discriminate.
  - simpl. left.
  - reflexivity.
Defined.

(** ** Percentages of the grand total *)



